(** * Signer: the partial-signature request handler

    Shallow embedding of [handleGetBlindedMessagePartialSig] and
    [isValidGetSignatureInput] from
    [packages/phone-number-privacy/signer/src/signing/get-partial-signature.ts].

    The handler is an [async] function that talks to a number of imported
    collaborators (authenticator, quota lookup, chain-height read, key
    provider, signature engine, request store, query counter), bumps
    Prometheus counters and finally writes one reply to the HTTP response.
    It is modelled in a state-and-exception monad: the state is the world the
    collaborators live in together with a chronological log of every
    observable effect of the handler, and a collaborator either returns a
    value or throws (a rejected promise).

    JavaScript numbers that hold counts, quotas and block heights are
    integers here ([Z]); the one piece of arithmetic the handler does on
    them, [performedQueryCount++], is double arithmetic and is modelled as
    such ([jsIncrement]).  Not modelled: the [logger] calls and the latency
    histograms (the timers started with [startTimer] and stopped through
    [.finally] or a direct call); neither influences control flow or the
    reply.  Incrementing a counter and writing the reply are taken not to
    throw. *)

From Stdlib Require Import ZArith List String Ascii Bool Lia.
Import ListNotations.
Local Open Scope string_scope.
Local Open Scope list_scope.
Local Open Scope Z_scope.

(** ** Data model *)

(** The request body, [GetBlindedMessagePartialSigRequest]. *)
Record GetBlindedMessagePartialSigRequest : Type := {
  account : string;
  blindedQueryPhoneNumber : string;
  hashedPhoneNumber : option string;
  timestamp : option Z;
  sessionID : option string
}.

(** The members of [WarningMessage] and [ErrorMessage] (package
    [@celo/phone-number-privacy-common]) that the handler mentions.  Their
    texts live in that package; here they are kept symbolic and rendered by
    the collaborator interface below. *)
Inductive WarningMessage : Type :=
| INVALID_INPUT
| UNAUTHENTICATED_USER
| EXCEEDED_QUOTA
| DUPLICATE_REQUEST_TO_GET_PARTIAL_SIG.

Inductive ErrorMessage : Type :=
| UNKNOWN_ERROR
| CONTRACT_GET_FAILURE
| FAILURE_TO_STORE_REQUEST
| FAILURE_TO_INCREMENT_QUERY_COUNT.

Inductive Message : Type :=
| Warning (w : WarningMessage)
| Error (e : ErrorMessage).

Definition Message_eq_dec (x y : Message) : {x = y} + {x <> y}.
Proof. repeat decide equality. Defined.

(** What [getRemainingQueryCount] resolves to. *)
Module Quota.
Record t : Type := { performedQueryCount : Z; totalQuota : Z }.
End Quota.

(** [SignMessageResponse]: the body of a 200 reply.  [error] is the optional
    field that only [SignMessageResponseFailure] carries. *)
Module SignMessageResponse.
Record t : Type := {
  success : bool;
  signature : string;
  version : string;
  performedQueryCount : Z;
  totalQuota : Z;
  blockNumber : Z;
  error : option string
}.
End SignMessageResponse.

(** What the handler writes to the HTTP response.  [respondWithError] is
    imported from [../common/error-utils]; a call to it is recorded with the
    arguments the handler passes (the three optional trailing numbers are
    [None] where the handler omits them).  [Json200] is [response.json] on
    the success path, whose status is the default 200. *)
Inductive Reply : Type :=
| RespondWithError (status : Z) (msg : Message)
    (performedQueryCount totalQuota blockNumber : option Z)
| Json200 (body : SignMessageResponse.t).

(** Prometheus counters the handler increments. *)
Inductive Counter : Type :=
| Requests
| SignatureRequestsWithoutSessionID
| BlockchainErrorsRead
| DuplicateRequests
| Responses200.

(** The imported functions that do I/O or may throw. *)
Inductive Collaborator : Type :=
| AuthenticateUser
| GetRemainingQueryCount
| GetBlockNumber
| GetPrivateKey
| ComputeBlindedSignature
| GetRequestExists
| StoreRequest
| IncrementQueryCount.

Definition Collaborator_eq_dec (x y : Collaborator) : {x = y} + {x <> y}.
Proof. decide equality. Defined.

(** A JavaScript exception (or the reason of a rejected promise). *)
Inductive Exn : Type := JsError (reason : string).

Inductive outcome (A : Type) : Type :=
| Returned (a : A)
| Thrown (e : Exn).
Arguments Returned {A} a.
Arguments Thrown {A} e.

(** How a recorded call ended, as a mock's call log would show it. *)
Inductive Completion : Type := Returns | Throws.

Definition completion {A} (o : outcome A) : Completion :=
  match o with Returned _ => Returns | Thrown _ => Throws end.

(** One observable effect of the handler. *)
Inductive Event : Type :=
| Inc (c : Counter)
| Call (c : Collaborator) (how : Completion)
| Send (r : Reply).

(** ** The handler monad: world state, effect log, exceptions *)

Section Monad.
Context {W : Type}.

Record State : Type := { world : W; trace : list Event }.

Definition M (A : Type) : Type := State -> outcome A * State.

Definition ret {A} (a : A) : M A := fun s => (Returned a, s).

Definition bind {A B} (m : M A) (k : A -> M B) : M B :=
  fun s =>
    match m s with
    | (Returned a, s') => k a s'
    | (Thrown e, s') => (Thrown e, s')
    end.

Definition log (e : Event) : M unit :=
  fun s => (Returned tt, {| world := world s; trace := trace s ++ [e] |}).

(** [Counters.x.inc()] *)
Definition inc (c : Counter) : M unit := log (Inc c).

(** [respondWithError(...)] and [response.json(...)] *)
Definition send (r : Reply) : M unit := log (Send r).

(** Calling (and awaiting) collaborator [c], whose behaviour on the world
    is [f]. *)
Definition invoke {A} (c : Collaborator) (f : W -> outcome A * W) : M A :=
  fun s =>
    let (o, w') := f (world s) in
    (o, {| world := w'; trace := trace s ++ [Call c (completion o)] |}).

(** [PromiseSettledResult]: what [Promise.allSettled] yields per promise. *)
Inductive Settled (A : Type) : Type :=
| fulfilled (value : A)
| rejected (reason : Exn).
Arguments fulfilled {A} value.
Arguments rejected {A} reason.

Definition settle {A} (m : M A) : M (Settled A) :=
  fun s =>
    match m s with
    | (Returned a, s') => (Returned (fulfilled a), s')
    | (Thrown e, s') => (Returned (rejected e), s')
    end.

(** [await Promise.allSettled([p, q])].  Both promises are created, in
    order, before anything is awaited, and each settles on its own.  The
    collaborators' effects on the world are sequenced in creation order;
    the interleaving of two requests in flight is not modelled. *)
Definition allSettled {A B} (p : M A) (q : M B) : M (Settled A * Settled B) :=
  bind (settle p) (fun a => bind (settle q) (fun b => ret (a, b))).

(** [try { m } catch (err) { h err }] *)
Definition try_catch {A} (m : M A) (h : Exn -> M A) : M A :=
  fun s =>
    match m s with
    | (Returned a, s') => (Returned a, s')
    | (Thrown e, s') => h e s'
    end.

(** Running a handler from a fresh log. *)
Definition run {A} (m : M A) (w : W) : outcome A * State :=
  m {| world := w; trace := [] |}.
End Monad.

Arguments State W : clear implicits.
Arguments M W A : clear implicits.
Arguments fulfilled {A} value.
Arguments rejected {A} reason.

Declare Scope handler_scope.
Delimit Scope handler_scope with handler.
Notation "x <- m ;; k" := (bind m (fun x => k))
  (at level 100, m at next level, right associativity) : handler_scope.
Notation "' p <- m ;; k" := (bind m (fun p => k))
  (at level 100, p pattern, m at next level, right associativity)
  : handler_scope.
Notation "m ;; k" := (bind m (fun _ => k))
  (at level 100, right associativity) : handler_scope.

(** ** The collaborators

    Everything the handler imports and calls.  The five validators come from
    [@celo/phone-number-privacy-common] and are predicates on the request
    body.  The effectful collaborators act on the world and either return or
    throw.  [getPrivateKey] stands for [getKeyProvider().getPrivateKey()],
    [getVersion] for the configuration read, and [messageText] gives the
    string value of each message enum member. *)
Class Collaborators (W PrivateKey ContractKit : Type) : Type := {
  hasValidAccountParam : GetBlindedMessagePartialSigRequest -> bool;
  hasValidQueryPhoneNumberParam : GetBlindedMessagePartialSigRequest -> bool;
  phoneNumberHashIsValidIfExists : GetBlindedMessagePartialSigRequest -> bool;
  isBodyReasonablySized : GetBlindedMessagePartialSigRequest -> bool;
  hasValidTimestamp : GetBlindedMessagePartialSigRequest -> bool;
  getContractKit : ContractKit;
  authenticateUser :
    GetBlindedMessagePartialSigRequest -> ContractKit -> W -> outcome bool * W;
  getRemainingQueryCount : string -> option string -> W -> outcome Quota.t * W;
  getBlockNumber : W -> outcome Z * W;
  getPrivateKey : W -> outcome PrivateKey * W;
  computeBlindedSignature : string -> PrivateKey -> W -> outcome string * W;
  getRequestExists : GetBlindedMessagePartialSigRequest -> W -> outcome bool * W;
  storeRequest : GetBlindedMessagePartialSigRequest -> W -> outcome bool * W;
  incrementQueryCount : string -> W -> outcome bool * W;
  getVersion : string;
  messageText : Message -> string
}.

(** ** JavaScript numbers

    A JavaScript number is an IEEE 754 double.  The numbers of the handler
    hold integers and are modelled by the integer they hold.  Every integer
    of magnitude up to 2^53 is a double; a larger one is a double when it
    is a multiple of its spacing, the power of two that lies 52 binary
    places below its leading bit (and it stays below 2^1024). *)

(** [Number.MAX_SAFE_INTEGER], 2^53 - 1. *)
Definition MAX_SAFE_INTEGER : Z := 9007199254740991.

(** [Number.isSafeInteger], on an integer. *)
Definition isSafeInteger (n : Z) : bool :=
  (- MAX_SAFE_INTEGER <=? n) && (n <=? MAX_SAFE_INTEGER).

(** The integers that are doubles. *)
Definition isDouble (n : Z) : bool :=
  let a := Z.abs n in
  (a <=? MAX_SAFE_INTEGER) ||
  ((a <? 2 ^ 1024) && (a mod 2 ^ (Z.log2 a - 52) =? 0)).

(** [n++] on a double [n] that holds an integer: [n + 1], rounded to the
    nearest double, ties to the even significand.

    - From -2^53 to 2^53 - 1 the sum is a double, and exact.
    - From 2^53 up to 2^54 in magnitude doubles are 2 apart, so [n + 1]
      lies half way between [n] and [n + 2]; the significand of [n] is
      [|n| / 2], and the tie goes to [n] when that is even ([n] a multiple
      of 4) and to [n + 2] when it is odd.  So 2^53 stays 2^53, and
      2^53 + 2 becomes 2^53 + 4.
    - From 2^54 on in magnitude doubles are at least 4 apart, [n] is the
      nearest to [n + 1], and the number is left as it is.

    On an integer that is no double, and so is the value of no number, the
    result does not matter. *)
Definition jsIncrement (n : Z) : Z :=
  if (- MAX_SAFE_INTEGER - 1 <=? n) && (n <=? MAX_SAFE_INTEGER) then n + 1
  else if (Z.abs n <? 18014398509481984) && (n mod 4 =? 2) then n + 2
  else n.
Arguments jsIncrement : simpl never.

(** ** The handler *)

(** The handler's mutable locals, as they stand between its steps. *)
Record Locals : Type := {
  errorMsgs : list Message;
  totalQuota : Z;
  performedQueryCount : Z;
  blockNumber : Z
}.

Definition isFulfilled {A} (r : Settled A) : bool :=
  match r with fulfilled _ => true | rejected _ => false end.

(** JavaScript truthiness of the optional string [sessionID]: absent and
    empty are both falsy. *)
Definition truthy (s : option string) : bool :=
  match s with
  | None => false
  | Some v => negb (String.eqb v "")
  end.

Section Handler.
Context {W PrivateKey ContractKit : Type}.
Context {collaborators : Collaborators W PrivateKey ContractKit}.

Local Open Scope handler_scope.

Definition isValidGetSignatureInput
    (requestBody : GetBlindedMessagePartialSigRequest) : bool :=
  hasValidAccountParam requestBody &&
  hasValidQueryPhoneNumberParam requestBody &&
  phoneNumberHashIsValidIfExists requestBody &&
  isBodyReasonablySized requestBody &&
  hasValidTimestamp requestBody.

(** [errorMsgs.join(', ')] *)
Definition joinErrorMsgs (msgs : list Message) : string :=
  String.concat ", " (map messageText msgs).

(** Lines 86-114: the two reads joined by [Promise.allSettled], the
    sentinel defaults and the shared [hadBlockchainError] flag. *)
Definition resolveQuotaAndBlockNumber
    (body : GetBlindedMessagePartialSigRequest)
    : M W (Settled Quota.t * Locals) :=
  let errorMsgs := [] in
  '(_queryCount, _blockNumber) <-
    allSettled
      (invoke GetRemainingQueryCount
         (getRemainingQueryCount (account body) (hashedPhoneNumber body)))
      (invoke GetBlockNumber getBlockNumber) ;;
  let totalQuota := -1 in
  let performedQueryCount := -1 in
  let blockNumber := -1 in
  let hadBlockchainError := false in
  let '(performedQueryCount, totalQuota, hadBlockchainError) :=
    match _queryCount with
    | fulfilled value =>
        (Quota.performedQueryCount value, Quota.totalQuota value,
         hadBlockchainError)
    | rejected _ => (performedQueryCount, totalQuota, true)
    end in
  let '(blockNumber, hadBlockchainError) :=
    match _blockNumber with
    | fulfilled value => (value, hadBlockchainError)
    | rejected _ => (blockNumber, true)
    end in
  errorMsgs <-
    (if hadBlockchainError
     then inc BlockchainErrorsRead ;;
          ret (errorMsgs ++ [Error CONTRACT_GET_FAILURE])
     else ret errorMsgs) ;;
  ret (_queryCount,
       {| errorMsgs := errorMsgs;
          totalQuota := totalQuota;
          performedQueryCount := performedQueryCount;
          blockNumber := blockNumber |}).

(** Line 116: the condition of the quota gate. *)
Definition quotaExceeded (_queryCount : Settled Quota.t) (l : Locals) : bool :=
  isFulfilled _queryCount && (performedQueryCount l >=? totalQuota l).

(** Lines 138-160: the duplicate check and the two database writes.
    Line 157, [performedQueryCount++], is [jsIncrement]. *)
Definition recordRequest
    (body : GetBlindedMessagePartialSigRequest) (l : Locals) : M W Locals :=
  requestExists <- invoke GetRequestExists (getRequestExists body) ;;
  if requestExists then
    inc DuplicateRequests ;;
    ret {| errorMsgs :=
             errorMsgs l ++ [Warning DUPLICATE_REQUEST_TO_GET_PARTIAL_SIG];
           totalQuota := totalQuota l;
           performedQueryCount := performedQueryCount l;
           blockNumber := blockNumber l |}
  else
    stored <- invoke StoreRequest (storeRequest body) ;;
    let errorMsgs :=
      if negb stored
      then errorMsgs l ++ [Error FAILURE_TO_STORE_REQUEST]
      else errorMsgs l in
    incremented <- invoke IncrementQueryCount (incrementQueryCount (account body)) ;;
    if negb incremented then
      ret {| errorMsgs := errorMsgs ++ [Error FAILURE_TO_INCREMENT_QUERY_COUNT];
             totalQuota := totalQuota l;
             performedQueryCount := performedQueryCount l;
             blockNumber := blockNumber l |}
    else
      ret {| errorMsgs := errorMsgs;
             totalQuota := totalQuota l;
             performedQueryCount := jsIncrement (performedQueryCount l);
             blockNumber := blockNumber l |}.

(** Lines 162-177: the body of the 200 reply. *)
Definition signMessageResponse (signature : string) (l : Locals)
    : SignMessageResponse.t :=
  let noErrors := Nat.eqb (List.length (errorMsgs l)) 0 in
  {| SignMessageResponse.success := noErrors;
     SignMessageResponse.signature := signature;
     SignMessageResponse.version := getVersion;
     SignMessageResponse.performedQueryCount := performedQueryCount l;
     SignMessageResponse.totalQuota := totalQuota l;
     SignMessageResponse.blockNumber := blockNumber l;
     SignMessageResponse.error :=
       if noErrors then None else Some (joinErrorMsgs (errorMsgs l)) |}.

(** Lines 52-180: the body of the [try] block. *)
Definition processRequest (body : GetBlindedMessagePartialSigRequest)
    : M W unit :=
  if negb (isValidGetSignatureInput body) then
    send (RespondWithError 400 (Warning INVALID_INPUT) None None None)
  else
    authenticated <-
      invoke AuthenticateUser (authenticateUser body getContractKit) ;;
    if negb authenticated then
      send (RespondWithError 401 (Warning UNAUTHENTICATED_USER) None None None)
    else
      '(_queryCount, l) <- resolveQuotaAndBlockNumber body ;;
      if quotaExceeded _queryCount l then
        send (RespondWithError 403 (Warning EXCEEDED_QUOTA)
                (Some (performedQueryCount l))
                (Some (totalQuota l))
                (Some (blockNumber l)))
      else
        privateKey <- invoke GetPrivateKey getPrivateKey ;;
        signature <-
          invoke ComputeBlindedSignature
            (computeBlindedSignature (blindedQueryPhoneNumber body) privateKey) ;;
        l <- recordRequest body l ;;
        inc Responses200 ;;
        send (Json200 (signMessageResponse signature l)).

Definition handleGetBlindedMessagePartialSig
    (body : GetBlindedMessagePartialSigRequest) : M W unit :=
  inc Requests ;;
  (if negb (truthy (sessionID body))
   then inc SignatureRequestsWithoutSessionID
   else ret tt) ;;
  try_catch (processRequest body)
    (fun _ => send (RespondWithError 500 (Error UNKNOWN_ERROR) None None None)).

End Handler.

(** ** Observing a run *)

(** The final state of one handler call started in world [w]. *)
Definition handle {W PrivateKey ContractKit : Type}
    {collaborators : Collaborators W PrivateKey ContractKit}
    (body : GetBlindedMessagePartialSigRequest) (w : W) : State W :=
  snd (run (handleGetBlindedMessagePartialSig body) w).

(** The replies written to the HTTP response, in order. *)
Fixpoint sent (tr : list Event) : list Reply :=
  match tr with
  | [] => []
  | Send r :: tr' => r :: sent tr'
  | _ :: tr' => sent tr'
  end.

(** The collaborator calls made, in order, with how each ended. *)
Fixpoint calls (tr : list Event) : list (Collaborator * Completion) :=
  match tr with
  | [] => []
  | Call c how :: tr' => (c, how) :: calls tr'
  | _ :: tr' => calls tr'
  end.

(** Was collaborator [c] called at all? *)
Definition called (c : Collaborator) (tr : list Event) : bool :=
  existsb (fun x => if Collaborator_eq_dec (fst x) c then true else false)
    (calls tr).

(** Did some call of collaborator [c] throw? *)
Definition threw (c : Collaborator) (tr : list Event) : bool :=
  existsb
    (fun x =>
       match x with
       | (c', Throws) => if Collaborator_eq_dec c' c then true else false
       | (_, Returns) => false
       end)
    (calls tr).

(** The value a settled read leaves in its local: the value read, or the
    sentinel the local was initialised with. *)
Definition orSentinel (o : outcome Z) : Z :=
  match o with Returned n => n | Thrown _ => -1 end.

Definition countOrSentinel (o : outcome Quota.t) : Z :=
  match o with
  | Returned q => Quota.performedQueryCount q
  | Thrown _ => -1
  end.

Definition quotaOrSentinel (o : outcome Quota.t) : Z :=
  match o with
  | Returned q => Quota.totalQuota q
  | Thrown _ => -1
  end.

(** The tag the two chain reads leave in [errorMsgs]. *)
Definition readTags (oq : outcome Quota.t) (ob : outcome Z) : list Message :=
  match oq, ob with
  | Returned _, Returned _ => []
  | _, _ => [Error CONTRACT_GET_FAILURE]
  end.

(** The tags the duplicate check and the two writes leave in [errorMsgs]. *)
Definition writeTags (dup stored incremented : bool) : list Message :=
  if dup then [Warning DUPLICATE_REQUEST_TO_GET_PARTIAL_SIG]
  else (if stored then [] else [Error FAILURE_TO_STORE_REQUEST]) ++
       (if incremented then [] else [Error FAILURE_TO_INCREMENT_QUERY_COUNT]).

(** The locals the 200 reply is assembled from, given what the two reads,
    the duplicate check and the two writes returned. *)
Definition servedLocals (oq : outcome Quota.t) (ob : outcome Z)
    (dup stored incremented : bool) : Locals :=
  {| errorMsgs := readTags oq ob ++ writeTags dup stored incremented;
     totalQuota := quotaOrSentinel oq;
     performedQueryCount :=
       if negb dup && incremented then jsIncrement (countOrSentinel oq)
       else countOrSentinel oq;
     blockNumber := orSentinel ob |}.


(** The quota lookup, if it succeeded, left room for one more query. *)
Definition withinQuota (o : outcome Quota.t) : Prop :=
  forall q, o = Returned q -> Quota.performedQueryCount q < Quota.totalQuota q.

(** What the collaborators gave in a call that started in world [w0] and
    got as far as the reply: the request was valid and authenticated, the
    quota lookup ended in [oq] and the chain-height read in [ob] without
    the quota gate closing, the key provider and the signature engine
    returned, the duplicate check returned [dup], and, for a request that
    was not a duplicate, the store-request write returned [stored] and the
    counter increment [incremented], each collaborator in the world the
    one before it left. *)
Definition recorded {W PrivateKey ContractKit : Type}
    {collaborators : Collaborators W PrivateKey ContractKit}
    (body : GetBlindedMessagePartialSigRequest) (w0 : W)
    (oq : outcome Quota.t) (ob : outcome Z)
    (dup stored incremented : bool) : Prop :=
  exists (w1 w2 w3 w4 w5 w6 w7 w8 : W) (key : PrivateKey) (signature : string),
    isValidGetSignatureInput body = true /\
    authenticateUser body getContractKit w0 = (Returned true, w1) /\
    getRemainingQueryCount (account body) (hashedPhoneNumber body) w1
      = (oq, w2) /\
    getBlockNumber w2 = (ob, w3) /\
    withinQuota oq /\
    getPrivateKey w3 = (Returned key, w4) /\
    computeBlindedSignature (blindedQueryPhoneNumber body) key w4
      = (Returned signature, w5) /\
    getRequestExists body w5 = (Returned dup, w6) /\
    (dup = false ->
     storeRequest body w6 = (Returned stored, w7) /\
     incrementQueryCount (account body) w7 = (Returned incremented, w8)).

(** The tags such a call collects, in the order in which the handler pushes
    them: the contract-read-failure tag when the quota lookup or the
    chain-height read threw, the duplicate-request tag when the request was
    found in the store, the store-failure tag when the store-request write
    returned [false], the increment-failure tag when the counter increment
    returned [false]. *)
Definition collectedTags (oq : outcome Quota.t) (ob : outcome Z)
    (dup stored incremented : bool) : list Message :=
  (match oq, ob with
   | Returned _, Returned _ => []
   | _, _ => [Error CONTRACT_GET_FAILURE]
   end) ++
  (if dup then [Warning DUPLICATE_REQUEST_TO_GET_PARTIAL_SIG] else []) ++
  (if negb dup && negb stored then [Error FAILURE_TO_STORE_REQUEST] else []) ++
  (if negb dup && negb incremented
   then [Error FAILURE_TO_INCREMENT_QUERY_COUNT] else []).

(** ** Scripted collaborators

    A test double in the manner of the signer's unit tests, which replace
    every import of the handler by a mock with a canned result.  The world is
    the list of database writes that went through. *)
Module Mock.

Inductive Write : Type :=
| StoredRequest (body : GetBlindedMessagePartialSigRequest)
| IncrementedQueryCount (account : string).

Definition Db : Type := list Write.

Record Script : Type := {
  validInput : bool;
  authenticates : outcome bool;
  quota : outcome Quota.t;
  blockHeight : outcome Z;
  privateKey : outcome string;
  blsSignature : outcome string;
  requestExists : outcome bool;
  stores : outcome bool;
  increments : outcome bool
}.

Definition canned {A} (o : outcome A) (db : Db) : outcome A * Db := (o, db).

Definition write (w : Write) (o : outcome bool) (db : Db) : outcome bool * Db :=
  match o with
  | Returned true => (o, db ++ [w])
  | _ => (o, db)
  end.

Definition text (m : Message) : string :=
  match m with
  | Warning INVALID_INPUT => "INVALID_INPUT"
  | Warning UNAUTHENTICATED_USER => "UNAUTHENTICATED_USER"
  | Warning EXCEEDED_QUOTA => "EXCEEDED_QUOTA"
  | Warning DUPLICATE_REQUEST_TO_GET_PARTIAL_SIG =>
      "DUPLICATE_REQUEST_TO_GET_PARTIAL_SIG"
  | Error UNKNOWN_ERROR => "UNKNOWN_ERROR"
  | Error CONTRACT_GET_FAILURE => "CONTRACT_GET_FAILURE"
  | Error FAILURE_TO_STORE_REQUEST => "FAILURE_TO_STORE_REQUEST"
  | Error FAILURE_TO_INCREMENT_QUERY_COUNT => "FAILURE_TO_INCREMENT_QUERY_COUNT"
  end.

Definition collaborators (s : Script) : Collaborators Db string unit := {|
  hasValidAccountParam := fun _ => validInput s;
  hasValidQueryPhoneNumberParam := fun _ => true;
  phoneNumberHashIsValidIfExists := fun _ => true;
  isBodyReasonablySized := fun _ => true;
  hasValidTimestamp := fun _ => true;
  getContractKit := tt;
  authenticateUser := fun _ _ => canned (authenticates s);
  getRemainingQueryCount := fun _ _ => canned (quota s);
  getBlockNumber := canned (blockHeight s);
  getPrivateKey := canned (privateKey s);
  computeBlindedSignature := fun _ _ => canned (blsSignature s);
  getRequestExists := fun _ => canned (requestExists s);
  storeRequest := fun body => write (StoredRequest body) (stores s);
  incrementQueryCount := fun acct => write (IncrementedQueryCount acct) (increments s);
  getVersion := "1.0.0";
  messageText := text
|}.

(** The request of the spec's scenarios. *)
Definition request : GetBlindedMessagePartialSigRequest := {|
  account := "0xAA";
  blindedQueryPhoneNumber := "B1";
  hashedPhoneNumber := None;
  timestamp := Some 1600000000000;
  sessionID := Some "session"
|}.

Definition unavailable {A} : outcome A := Thrown (JsError "unavailable").

(** Everything works: 2 of 10 queries performed, chain height 500, no
    earlier record of the request. *)
Definition healthy : Script := {|
  validInput := true;
  authenticates := Returned true;
  quota := Returned {| Quota.performedQueryCount := 2; Quota.totalQuota := 10 |};
  blockHeight := Returned 500;
  privateKey := Returned "key";
  blsSignature := Returned "S";
  requestExists := Returned false;
  stores := Returned true;
  increments := Returned true
|}.

Definition withAuthenticates (o : outcome bool) (s : Script) : Script := {|
  validInput := validInput s; authenticates := o; quota := quota s;
  blockHeight := blockHeight s; privateKey := privateKey s;
  blsSignature := blsSignature s; requestExists := requestExists s;
  stores := stores s; increments := increments s
|}.

Definition withQuota (o : outcome Quota.t) (s : Script) : Script := {|
  validInput := validInput s; authenticates := authenticates s; quota := o;
  blockHeight := blockHeight s; privateKey := privateKey s;
  blsSignature := blsSignature s; requestExists := requestExists s;
  stores := stores s; increments := increments s
|}.

Definition withBlockHeight (o : outcome Z) (s : Script) : Script := {|
  validInput := validInput s; authenticates := authenticates s;
  quota := quota s; blockHeight := o; privateKey := privateKey s;
  blsSignature := blsSignature s; requestExists := requestExists s;
  stores := stores s; increments := increments s
|}.

Definition withRequestExists (o : outcome bool) (s : Script) : Script := {|
  validInput := validInput s; authenticates := authenticates s;
  quota := quota s; blockHeight := blockHeight s; privateKey := privateKey s;
  blsSignature := blsSignature s; requestExists := o;
  stores := stores s; increments := increments s
|}.

Definition withStores (o : outcome bool) (s : Script) : Script := {|
  validInput := validInput s; authenticates := authenticates s;
  quota := quota s; blockHeight := blockHeight s; privateKey := privateKey s;
  blsSignature := blsSignature s; requestExists := requestExists s;
  stores := o; increments := increments s
|}.

Definition withIncrements (o : outcome bool) (s : Script) : Script := {|
  validInput := validInput s; authenticates := authenticates s;
  quota := quota s; blockHeight := blockHeight s; privateKey := privateKey s;
  blsSignature := blsSignature s; requestExists := requestExists s;
  stores := stores s; increments := o
|}.

Definition withBlsSignature (o : outcome string) (s : Script) : Script := {|
  validInput := validInput s; authenticates := authenticates s;
  quota := quota s; blockHeight := blockHeight s; privateKey := privateKey s;
  blsSignature := o; requestExists := requestExists s;
  stores := stores s; increments := increments s
|}.

(** The authenticator says no. *)
Definition unauthenticated : Script := withAuthenticates (Returned false) healthy.

(** 10 of 10 queries performed. *)
Definition exhausted : Script :=
  withQuota
    (Returned {| Quota.performedQueryCount := 10; Quota.totalQuota := 10 |})
    healthy.


(** The store write reports failure, the increment goes through. *)
Definition storeFails : Script := withStores (Returned false) healthy.

(** The quota lookup rejects. *)
Definition quotaDown : Script := withQuota unavailable healthy.

(** The chain-height read rejects. *)
Definition heightDown : Script := withBlockHeight unavailable healthy.

(** Both chain reads reject. *)
Definition chainDown : Script := withBlockHeight unavailable quotaDown.

(** The quota lookup rejects and the request is a resubmission. *)
Definition quotaDownResubmitted : Script :=
  withRequestExists (Returned true) quotaDown.

(** The quota lookup rejects, and both writes report failure. *)
Definition degraded : Script :=
  withStores (Returned false) (withIncrements (Returned false) quotaDown).

(** 2^53 of 2^53 + 2 queries performed: the count has left the range of
    the safe integers. *)
Definition countAtTwoTo53 : Script :=
  withQuota
    (Returned {| Quota.performedQueryCount := 9007199254740992;
                 Quota.totalQuota := 9007199254740994 |})
    healthy.

(** The signature engine throws, after a failed chain-height read. *)
Definition engineThrows : Script := withBlsSignature unavailable heightDown.

(** The store-request write throws instead of returning a boolean. *)
Definition storeThrows : Script := withStores unavailable healthy.

Definition served (s : Script) : State Db :=
  @handle _ _ _ (collaborators s) request [].

(** One validator turns the request down. *)
Definition malformed : Script := {|
  validInput := false; authenticates := authenticates healthy;
  quota := quota healthy; blockHeight := blockHeight healthy;
  privateKey := privateKey healthy; blsSignature := blsSignature healthy;
  requestExists := requestExists healthy;
  stores := stores healthy; increments := increments healthy
|}.

(** The database after the store write, and after the increment too. *)
Definition stored : Db := [StoredRequest request].
Definition storedAndCounted : Db :=
  [StoredRequest request; IncrementedQueryCount "0xAA"].

(** A 200 reply of the scripted signer. *)
Definition response (performed total height : Z) (err : option string)
    : SignMessageResponse.t :=
  {| SignMessageResponse.success :=
       match err with None => true | Some _ => false end;
     SignMessageResponse.signature := "S";
     SignMessageResponse.version := "1.0.0";
     SignMessageResponse.performedQueryCount := performed;
     SignMessageResponse.totalQuota := total;
     SignMessageResponse.blockNumber := height;
     SignMessageResponse.error := err |}.

End Mock.


(** ** Counting and ordering effects *)

(** How often counter [c] was incremented. *)
Fixpoint bumps (c : Counter) (tr : list Event) : nat :=
  match tr with
  | [] => 0%nat
  | Inc c' :: tr' =>
      match c, c' with
      | Requests, Requests
      | SignatureRequestsWithoutSessionID, SignatureRequestsWithoutSessionID
      | BlockchainErrorsRead, BlockchainErrorsRead
      | DuplicateRequests, DuplicateRequests
      | Responses200, Responses200 => S (bumps c tr')
      | _, _ => bumps c tr'
      end
  | _ :: tr' => bumps c tr'
  end.

(** The order in which the handler's text reaches its collaborators. *)
Definition callOrder : list Collaborator :=
  [AuthenticateUser; GetRemainingQueryCount; GetBlockNumber; GetPrivateKey;
   ComputeBlindedSignature; GetRequestExists; StoreRequest; IncrementQueryCount].

(** ** An in-memory ledger

    A second test double, this one stateful: the duplicate check and the
    quota lookup read the database that the two writes fill, so that two
    calls in a row can be observed.  Every account starts with 2 of 10
    queries performed and the chain stands at height 500. *)
Module Ledger.

Definition sameOption {A} (eqb : A -> A -> bool) (x y : option A) : bool :=
  match x, y with
  | Some a, Some b => eqb a b
  | None, None => true
  | _, _ => false
  end.

Definition sameRequest (a b : GetBlindedMessagePartialSigRequest) : bool :=
  String.eqb (account a) (account b) &&
  String.eqb (blindedQueryPhoneNumber a) (blindedQueryPhoneNumber b) &&
  sameOption String.eqb (hashedPhoneNumber a) (hashedPhoneNumber b) &&
  sameOption Z.eqb (timestamp a) (timestamp b) &&
  sameOption String.eqb (sessionID a) (sessionID b).

Definition isStored (body : GetBlindedMessagePartialSigRequest)
    (w : Mock.Write) : bool :=
  match w with
  | Mock.StoredRequest b => sameRequest b body
  | Mock.IncrementedQueryCount _ => false
  end.

Definition countsFor (acct : string) (w : Mock.Write) : bool :=
  match w with
  | Mock.StoredRequest _ => false
  | Mock.IncrementedQueryCount a => String.eqb a acct
  end.

Definition performed (acct : string) (db : Mock.Db) : Z :=
  2 + Z.of_nat (List.length (filter (countsFor acct) db)).

Definition collaborators : Collaborators Mock.Db string unit := {|
  hasValidAccountParam := fun _ => true;
  hasValidQueryPhoneNumberParam := fun _ => true;
  phoneNumberHashIsValidIfExists := fun _ => true;
  isBodyReasonablySized := fun _ => true;
  hasValidTimestamp := fun _ => true;
  getContractKit := tt;
  authenticateUser := fun _ _ db => (Returned true, db);
  getRemainingQueryCount := fun acct _ db =>
    (Returned {| Quota.performedQueryCount := performed acct db;
                 Quota.totalQuota := 10 |}, db);
  getBlockNumber := fun db => (Returned 500, db);
  getPrivateKey := fun db => (Returned "key", db);
  computeBlindedSignature := fun blinded _ db => (Returned ("S:" ++ blinded)%string, db);
  getRequestExists := fun body db => (Returned (existsb (isStored body) db), db);
  storeRequest := fun body db => (Returned true, db ++ [Mock.StoredRequest body]);
  incrementQueryCount := fun acct db =>
    (Returned true, db ++ [Mock.IncrementedQueryCount acct]);
  getVersion := "1.0.0";
  messageText := Mock.text
|}.

Definition served (db : Mock.Db) : State Mock.Db :=
  @handle _ _ _ collaborators Mock.request db.


End Ledger.

(** ** Polling Blockscout for a transaction

    [getFirstValidBlockscoutResponse] and [fetchBlockscoutTxInfo], from the
    geth tooling that follows the handler in the sources.  The Blockscout
    server is an oracle: [fetch url n] is what request number [n] of this
    call gives, fetching and decoding the JSON body together; a body on
    which reading [status] would throw counts as a throwing request.
    [status] reads [json.status], [now n] is [Date.now()] as read after
    request [n].  The log lists, in order, what the loop does to the
    outside. *)
Module Blockscout.

Definition MAXIMAL_BLOCKSCOUT_TIMEOUT : Z := 15000.
Definition BLOCKSCOUT_FETCH_RETRY_TIME : Z := 150.

Inductive Effect : Type :=
| Fetch (url : string)
| Sleep (ms : Z).

(** How many requests were made. *)
Fixpoint fetches (fx : list Effect) : nat :=
  match fx with
  | [] => 0%nat
  | Fetch _ :: fx' => S (fetches fx')
  | Sleep _ :: fx' => fetches fx'
  end.

(** How long the loop slept in all, in milliseconds. *)
Fixpoint slept (fx : list Effect) : Z :=
  match fx with
  | [] => 0
  | Fetch _ :: fx' => slept fx'
  | Sleep ms :: fx' => ms + slept fx'
  end.

Section Poll.
Context {Json : Type}.
Variable status : Json -> string.
Variable fetch : string -> nat -> outcome Json.
Variable now : nat -> Z.

Definition endpoint (url txHash : string) : string :=
  (url ++ "/api?module=transaction&action=gettxinfo&txhash=" ++ txHash)%string.

Definition fetchBlockscoutTxInfo (url txHash : string) (n : nat)
    : outcome Json * list Effect :=
  (fetch (endpoint url txHash) n, [Fetch (endpoint url txHash)]).

(** The [for] loop, by the number of attempts still allowed: [remaining] is
    [attempts - attemptId]. *)
Fixpoint poll (remaining attemptId : nat) (url txHash : string)
    : outcome (option (Json * Z)) * list Effect :=
  match remaining with
  | O => (Returned None, [])
  | S remaining' =>
      let (o, fx) := fetchBlockscoutTxInfo url txHash attemptId in
      match o with
      | Thrown e => (Thrown e, fx)
      | Returned json =>
          if negb (String.eqb (status json) "1") then
            let (r, fx') := poll remaining' (S attemptId) url txHash in
            (r, fx ++ Sleep BLOCKSCOUT_FETCH_RETRY_TIME :: fx')
          else (Returned (Some (json, now attemptId)), fx)
      end
  end.

Definition getFirstValidBlockscoutResponse (url txHash : string)
    : outcome (option (Json * Z)) * list Effect :=
  let attempts := MAXIMAL_BLOCKSCOUT_TIMEOUT / BLOCKSCOUT_FETCH_RETRY_TIME in
  poll (Z.to_nat attempts) 0 url txHash.

(** Request [n] returns a response whose status is not ['1']. *)
Definition notYet (url txHash : string) (n : nat) : Prop :=
  exists json, fetch (endpoint url txHash) n = Returned json /\ status json <> "1".

(** [k] unsuccessful rounds: a request, then a sleep of the retry time. *)
Fixpoint rounds (url txHash : string) (k : nat) : list Effect :=
  match k with
  | O => []
  | S k' => Fetch (endpoint url txHash) :: Sleep BLOCKSCOUT_FETCH_RETRY_TIME
            :: rounds url txHash k'
  end.

End Poll.

(** A server that answers with status ['1'] from the fourth request on, and
    one that never does. *)
Definition readyAtFour (_ : string) (n : nat) : outcome string :=
  Returned (if (3 <=? n)%nat then "1" else "0").

Definition neverReady (_ : string) (_ : nat) : outcome string := Returned "0".

Definition clock (n : nat) : Z := 1000 + Z.of_nat n.

End Blockscout.

(** ** Linking libraries into bytecode

    [padForLink] and [linkLibraries], from the bytecode utilities at the end
    of the sources.  A string is the sequence of the code units of the
    JavaScript string; bytecode and library names are ASCII text, for which
    that is the sequence of their characters. *)
Module Bytecode.

(** [s.padEnd(targetLength, fill)] for a one-character filler. *)
Definition padEnd (s : string) (targetLength : nat) (fill : ascii) : string :=
  (s ++ string_of_list_ascii (repeat fill (targetLength - String.length s)))%string.

(** The placeholder solc leaves for an unlinked library. *)
Definition padForLink (name : string) : string :=
  padEnd ("__" ++ name)%string 40 "_"%char.

(** The characters with a meaning of their own in a regular expression
    (ECMAScript's SyntaxCharacter). *)
Definition syntaxCharacters : list ascii :=
  list_ascii_of_string "^$\.*+?()[]{}|".

Definition isSyntaxCharacter (c : ascii) : bool :=
  existsb (Ascii.eqb c) syntaxCharacters.

(** A pattern without syntax characters matches itself and nothing else. *)
Definition literalPattern (s : string) : bool :=
  forallb (fun c => negb (isSyntaxCharacter c)) (list_ascii_of_string s).

(** A replacement without [$] is inserted as it stands. *)
Definition plainReplacement (s : string) : bool :=
  forallb (fun c => negb (Ascii.eqb c "$"%char)) (list_ascii_of_string s).

(** [s.replace(RegExp(pattern, 'g'), replacement)] for a non-empty literal
    pattern and a plain replacement: every match is replaced, matches are
    found left to right, the search resumes after the end of a match, and
    replaced text is not searched again.  [skip] counts the characters of
    the current match still to be passed over. *)
Fixpoint replaceAll (pattern replacement : string) (skip : nat) (s : string)
    : string :=
  match s with
  | EmptyString => EmptyString
  | String c rest =>
      match skip with
      | S k => replaceAll pattern replacement k rest
      | O =>
          if prefix pattern s
          then (replacement ++
                replaceAll pattern replacement (String.length pattern - 1) rest)%string
          else String c (replaceAll pattern replacement 0 rest)
      end
  end.

(** The entries of the [LibraryLinks] object, in [Object.keys] order. *)
Definition LibraryLinks : Type := list (string * string).

(** [linkLibraries], for library names free of syntax characters and
    addresses free of [$], where [RegExp(linkString, 'g')] is a literal
    pattern.  Other inputs are outside the model: the result is [None]. *)
Definition linkLibraries (bytecode : string) (libraryLinks : LibraryLinks)
    : option string :=
  fold_left
    (fun (acc : option string) (entry : string * string) =>
       let (libraryName, address) := entry in
       match acc with
       | None => None
       | Some bytecode =>
           let linkString := padForLink libraryName in
           if literalPattern linkString && plainReplacement address
           then Some (replaceAll linkString address 0 bytecode)
           else None
       end)
    libraryLinks (Some bytecode).

(** Does [pattern] occur somewhere in [s]? *)
Fixpoint occurs (pattern s : string) : bool :=
  match s with
  | EmptyString => prefix pattern s
  | String _ rest => prefix pattern s || occurs pattern rest
  end.

(** No underscore in [s], as in hexadecimal text. *)
Definition underscoreFree (s : string) : bool :=
  forallb (fun c => negb (Ascii.eqb c "_"%char)) (list_ascii_of_string s).

(** A library and an address to link it to. *)
Definition someAddress : string := "00112233445566778899aabbccddeeff00112233".

End Bytecode.


(** ** Stripping the metadata hash from bytecode

    [stripMetadata], from the bytecode utilities.  [GENERAL_METADATA_REGEXP]
    is [^] a greedy any-characters group, then one of two alternatives, then
    [$], with the [i] flag; the function returns the first group.  The
    definitions below follow that pattern piece by piece.  Strings are
    sequences of code units below 256, so the only line terminators are
    line feed and carriage return. *)
Module Metadata.

(** Folding of the letters A-Z onto a-z: how the [i] flag compares the
    characters of these patterns, which are digits and lower-case letters. *)
Definition lower (c : ascii) : ascii :=
  let n := nat_of_ascii c in
  if ((65 <=? n) && (n <=? 90))%nat then ascii_of_nat (n + 32) else c.

Definition sameLetter (a b : ascii) : bool := Ascii.eqb (lower a) (lower b).

(** [.] does not match a line terminator. *)
Definition isLineTerminator (c : ascii) : bool :=
  Ascii.eqb c "010"%char || Ascii.eqb c "013"%char.

Definition oneLine (s : string) : bool :=
  forallb (fun c => negb (isLineTerminator c)) (list_ascii_of_string s).

(** What is left of [s] after a leading [pattern], compared without regard
    to case. *)
Fixpoint afterPrefix (pattern s : string) : option string :=
  match pattern with
  | EmptyString => Some s
  | String a pattern' =>
      match s with
      | EmptyString => None
      | String b s' => if sameLetter a b then afterPrefix pattern' s' else None
      end
  end.

(** Does some suffix of [s], [s] itself and the empty one included, satisfy
    [test]? *)
Fixpoint someSuffix (test : string -> bool) (s : string) : bool :=
  match s with
  | EmptyString => test s
  | String _ rest => test s || someSuffix test rest
  end.

(** [s] is [pattern] up to case. *)
Definition isExactly (pattern s : string) : bool :=
  match afterPrefix pattern s with
  | Some EmptyString => true
  | _ => false
  end.

(** [s] matches [.*pattern$]. *)
Definition endsWith (pattern s : string) : bool := someSuffix (isExactly pattern) s.

(** [s] matches [.*marker.*ending$]. *)
Definition holdsThenEndsWith (marker ending s : string) : bool :=
  someSuffix
    (fun t => match afterPrefix marker t with
              | Some rest => endsWith ending rest
              | None => false
              end)
    s.

(** The first alternative, solc 0.5.8: [a165627a7a72305820.*0029]. *)
Definition isMetadata058 (s : string) : bool :=
  match afterPrefix "a165627a7a72305820" s with
  | Some rest => endsWith "0029" rest
  | None => false
  end.

(** The second alternative, solc 0.5.12:
    [a265627a7a72315820.*64736f6c6343.*0032]. *)
Definition isMetadata0512 (s : string) : bool :=
  match afterPrefix "a265627a7a72315820" s with
  | Some rest => holdsThenEndsWith "64736f6c6343" "0032" rest
  | None => false
  end.

(** Either alternative. *)
Definition isMetadata (s : string) : bool := isMetadata058 s || isMetadata0512 s.

(** The first group of [GENERAL_METADATA_REGEXP] on a one-line input: the
    greedy first group takes the longest beginning after which the rest is one
    of the two alternatives. *)
Fixpoint beforeMetadata (s : string) : option string :=
  match s with
  | EmptyString => None
  | String c rest =>
      match beforeMetadata rest with
      | Some p => Some (String c p)
      | None => if isMetadata s then Some EmptyString else None
      end
  end.

(** The error thrown when the pattern does not match. *)
Definition unsupported : Exn :=
  JsError "Only support stripping metadata from bytecodes generated by solc up to v0.5.13 with no experimental features.".

Definition stripMetadata (bytecode : string) : outcome string :=
  if String.eqb bytecode "0x" then Returned "0x"
  else
    match (if oneLine bytecode then beforeMetadata bytecode else None) with
    | None => Thrown unsupported
    | Some p => Returned p
    end.

End Metadata.


(** ** Choosing the peers of isolated validators

    [connectValidatorPeers], from the geth tooling.  [GethInstanceConfig] is
    declared in [./interfaces/geth-instance-config], which is not among the
    sources: the record holds the properties this function reads, each of
    which may be absent.  [connectBipartiteClique] talks to the running
    nodes; the call is recorded with its two arguments. *)
Module Geth.

Record GethInstanceConfig : Type := {
  name : string;
  validating : option bool;
  isProxied : option bool;
  isProxy : option bool;
  bootnodeEnode : option string
}.

(** Truthiness of an optional boolean property. *)
Definition truthyFlag (b : option bool) : bool :=
  match b with Some true => true | _ => false end.

(** [(node.validating && !node.isProxied) || node.isProxy] *)
Definition isValidator (node : GethInstanceConfig) : bool :=
  (truthyFlag (validating node) && negb (truthyFlag (isProxied node)))
  || truthyFlag (isProxy node).

(** [node.bootnodeEnode] as a condition: present and not empty. *)
Definition hasBootnode (node : GethInstanceConfig) : bool :=
  truthy (bootnodeEnode node).

(** What [connectValidatorPeers] does: nothing, or one call of
    [connectBipartiteClique(left, right)].  An array element may be
    [undefined]. *)
Inductive PeerPlan : Type :=
| NoConnections
| ConnectBipartiteClique
    (left : list (option GethInstanceConfig)) (right : list GethInstanceConfig).

Definition connectValidatorPeers (instances : list GethInstanceConfig) : PeerPlan :=
  let validators := filter isValidator instances in
  let isolated := filter (fun node => negb (hasBootnode node)) validators in
  if (Z.of_nat (List.length isolated) <=? 0) then NoConnections
  else
    let root :=
      match find hasBootnode validators with
      | Some node => Some node
      | None => nth_error validators 0
      end in
    ConnectBipartiteClique [root] isolated.

(** Four instances: a proxied validator, which does not count as one, two
    validators without a bootnode and one with. *)
Definition node (n : string) (isProxiedValidator : bool) (enode : option string)
    : GethInstanceConfig :=
  {| name := n;
     validating := Some true;
     isProxied := if isProxiedValidator then Some true else None;
     isProxy := None;
     bootnodeEnode := enode |}.

Definition behindProxy : GethInstanceConfig := node "proxied" true None.
Definition loneA : GethInstanceConfig := node "a" false None.
Definition seeded : GethInstanceConfig := node "b" false (Some "enode://boot").
Definition loneC : GethInstanceConfig := node "c" false (Some "").

End Geth.


(** ** Sending ERC20 tokens

    [unlockAccount] and [transferERC20Token], from the geth tooling.  The
    node and the token contract are an environment that says what each call
    gives; every effect is logged in order.  A callback is a function whose
    outcome is what calling it gives, a throw included.  The assignment
    [txParams.from = from] has no effect on what follows and is left out. *)
Module Transfer.

Inductive Effect : Type :=
| GetAccounts
| PersonalUnlockAccount (address : option string) (password : string) (duration : Z)
| ConvertToContractDecimals
| TransferSend (to : string)
| GetHash
| OnTransactionHash (hash : string)
| WaitReceipt
| OnReceipt
| OnError (error : Exn).

(** Computations that log effects and may throw. *)
Definition T (A : Type) : Type := list Effect -> outcome A * list Effect.

Definition pure {A} (a : A) : T A := fun log => (Returned a, log).

Definition andThen {A B} (m : T A) (k : A -> T B) : T B :=
  fun log =>
    match m log with
    | (Returned a, log') => k a log'
    | (Thrown e, log') => (Thrown e, log')
    end.

(** An effect whose result the environment decides. *)
Definition perform {A} (e : Effect) (o : outcome A) : T A :=
  fun log => (o, log ++ [e]).

Definition tryCatch {A} (m : T A) (h : Exn -> T A) : T A :=
  fun log =>
    match m log with
    | (Returned a, log') => (Returned a, log')
    | (Thrown e, log') => h e log'
    end.

Section Web3.
Context {Amount Result Receipt : Type}.

(** The node and the token contract: what each call gives when it is made. *)
Record Environment : Type := {
  getAccounts : outcome (list string);
  personalUnlockAccount : option string -> string -> Z -> outcome unit;
  convertToContractDecimals : outcome Amount;
  transferSend : string -> Amount -> outcome Result;
  getHash : Result -> outcome string;
  waitReceipt : Result -> outcome Receipt
}.

Variable env : Environment.

(** [accounts[0]] may be [undefined]; so may the address unlocked and
    returned. *)
Definition unlockAccount (duration : Z) (password : string)
    (accountAddress : option string) : T (option string) :=
  andThen
    (match accountAddress with
     | None =>
         andThen (perform GetAccounts (getAccounts env))
           (fun accounts => pure (hd_error accounts))
     | Some address => pure (Some address)
     end)
    (fun accountAddress =>
       andThen
         (perform (PersonalUnlockAccount accountAddress password duration)
            (personalUnlockAccount env accountAddress password duration))
         (fun _ => pure accountAddress)).

(** [onTransactionHash], [onReceipt] and [onError] are optional. *)
Definition transferERC20Token (from to password : string)
    (onTransactionHash : option (string -> outcome unit))
    (onReceipt : option (Receipt -> outcome unit))
    (onError : option (Exn -> outcome unit)) : T unit :=
  andThen (unlockAccount 0 password (Some from)) (fun _ =>
  andThen (perform ConvertToContractDecimals (convertToContractDecimals env))
    (fun convertedAmount =>
  tryCatch
    (andThen (perform (TransferSend to) (transferSend env to convertedAmount))
       (fun result =>
     andThen
       (match onTransactionHash with
        | Some callback =>
            andThen (perform GetHash (getHash env result)) (fun hash =>
            perform (OnTransactionHash hash) (callback hash))
        | None => pure tt
        end) (fun _ =>
     match onReceipt with
     | Some callback =>
         andThen (perform WaitReceipt (waitReceipt env result)) (fun receipt =>
         perform OnReceipt (callback receipt))
     | None => pure tt
     end)))
    (fun error =>
       match onError with
       | Some callback => perform (OnError error) (callback error)
       | None => pure tt
       end))).

(** Recognisers for effects in a log. *)
Definition isOnError (e : Effect) : bool :=
  match e with OnError _ => true | _ => false end.

Definition isTransferSend (e : Effect) : bool :=
  match e with TransferSend _ => true | _ => false end.

Definition isGetAccounts (e : Effect) : bool :=
  match e with GetAccounts => true | _ => false end.

Definition isGetHash (e : Effect) : bool :=
  match e with GetHash => true | _ => false end.

Definition isWaitReceipt (e : Effect) : bool :=
  match e with WaitReceipt => true | _ => false end.

Definition mentions (test : Effect -> bool) (log : list Effect) : bool :=
  existsb test log.

End Web3.

(** A node on which sending fails. *)
Definition failingSend : @Environment Z string string := {|
  getAccounts := Returned ["0xAA"];
  personalUnlockAccount := fun _ _ _ => Returned tt;
  convertToContractDecimals := Returned 10;
  transferSend := fun _ _ => Thrown (JsError "nonce too low");
  getHash := fun _ => Returned "0xhash";
  waitReceipt := fun _ => Returned "receipt"
|}.

End Transfer.


(** ** Reasoning about runs *)

(** Unfolds the handler down to the collaborator calls. *)
Ltac unfold_handler :=
  unfold handle, run, handleGetBlindedMessagePartialSig, processRequest,
    resolveQuotaAndBlockNumber, recordRequest, quotaExceeded, allSettled,
    settle, try_catch, bind, invoke, inc, send, log, ret;
  cbn [world trace fst snd].

(** Replaces the next collaborator call (or validation) by its known result. *)
Ltac step :=
  match goal with
  | H : ?call = (_, _) |- context [?call] => rewrite H
  | H : ?test = true |- context [?test] => rewrite H
  | H : ?test = false |- context [?test] => rewrite H
  end;
  cbn [world trace fst snd negb completion isFulfilled andb
       errorMsgs totalQuota performedQueryCount blockNumber app].

Ltac steps :=
  unfold_handler;
  match goal with
  | |- context [truthy ?session] => destruct (truthy session)
  end;
  cbn [world trace fst snd negb app];
  repeat step.

(** Case analysis on the next collaborator call of an unfolded run. *)
Ltac next_call :=
  match goal with
  | |- context [authenticateUser ?b ?k ?w] =>
      destruct (authenticateUser b k w) as [[[|] | ?] ?]
  | |- context [getRemainingQueryCount ?a ?h ?w] =>
      destruct (getRemainingQueryCount a h w) as [[[? ?] | ?] ?]
  | |- context [getBlockNumber ?w] =>
      destruct (getBlockNumber w) as [[? | ?] ?]
  | |- context [getPrivateKey ?w] =>
      destruct (getPrivateKey w) as [[? | ?] ?]
  | |- context [computeBlindedSignature ?b ?k ?w] =>
      destruct (computeBlindedSignature b k w) as [[? | ?] ?]
  | |- context [getRequestExists ?b ?w] =>
      destruct (getRequestExists b w) as [[[|] | ?] ?]
  | |- context [storeRequest ?b ?w] =>
      destruct (storeRequest b w) as [[[|] | ?] ?]
  | |- context [incrementQueryCount ?a ?w] =>
      destruct (incrementQueryCount a w) as [[[|] | ?] ?]
  | |- context [Z.geb ?x ?y] => destruct (Z.geb x y)
  end;
  cbn.

(** Every path of the handler, one goal per path. *)
Ltac all_paths :=
  unfold_handler;
  match goal with
  | |- context [truthy ?session] => destruct (truthy session)
  end;
  match goal with
  | |- context [isValidGetSignatureInput ?b] =>
      destruct (isValidGetSignatureInput b)
  end;
  cbn; repeat next_call.

(** ** Facts about numbers *)

(** Decides the comparisons a goal branches on. *)
Ltac compare_numbers :=
  repeat match goal with
         | |- context [?a <=? ?b] => destruct (Z.leb_spec a b)
         | |- context [?a <? ?b] => destruct (Z.ltb_spec a b)
         | |- context [?a =? ?b] => destruct (Z.eqb_spec a b)
         end;
  cbn [andb orb].

(** On a safe integer [++] adds one. *)
Lemma jsIncrement_safe (n : Z) :
  isSafeInteger n = true -> jsIncrement n = n + 1.
Proof.
  unfold isSafeInteger, jsIncrement, MAX_SAFE_INTEGER. intros Hsafe.
  apply andb_prop in Hsafe as [Hlo Hhi].
  apply Z.leb_le in Hlo, Hhi.
  compare_numbers; (reflexivity || lia).
Qed.

(** Past the safe integers every double is even. *)
Lemma isDouble_even (n : Z) :
  isDouble n = true -> MAX_SAFE_INTEGER < Z.abs n -> exists m, n = 2 * m.
Proof.
  unfold isDouble, MAX_SAFE_INTEGER. intros Hdouble Hbig.
  apply orb_prop in Hdouble as [Hsmall | Hmultiple].
  { apply Z.leb_le in Hsmall. lia. }
  apply andb_prop in Hmultiple as [_ Hmultiple].
  apply Z.eqb_eq in Hmultiple.
  assert (Hlog : 53 <= Z.log2 (Z.abs n)).
  { change 53 with (Z.log2 (2 ^ 53)). apply Z.log2_le_mono.
    change (2 ^ 53) with 9007199254740992. lia. }
  assert (Hpow : 2 ^ (Z.log2 (Z.abs n) - 52)
                 = 2 * 2 ^ (Z.log2 (Z.abs n) - 53)).
  { replace (Z.log2 (Z.abs n) - 52) with (Z.succ (Z.log2 (Z.abs n) - 53)) by lia.
    apply Z.pow_succ_r. lia. }
  rewrite Hpow in Hmultiple.
  assert (Hpos : 0 < 2 ^ (Z.log2 (Z.abs n) - 53))
    by (apply Z.pow_pos_nonneg; lia).
  pose proof (Z.div_mod (Z.abs n) (2 * 2 ^ (Z.log2 (Z.abs n) - 53))
                ltac:(lia)) as Hdiv.
  rewrite Hmultiple, Z.add_0_r in Hdiv.
  destruct (Z.abs_spec n) as [[_ Habs] | [_ Habs]].
  - exists (2 ^ (Z.log2 (Z.abs n) - 53)
            * (Z.abs n / (2 * 2 ^ (Z.log2 (Z.abs n) - 53)))).
    rewrite <- Habs at 1. rewrite Hdiv at 1. ring.
  - exists (- (2 ^ (Z.log2 (Z.abs n) - 53)
               * (Z.abs n / (2 * 2 ^ (Z.log2 (Z.abs n) - 53))))).
    replace n with (- Z.abs n) at 1 by lia. rewrite Hdiv at 1. ring.
Qed.

(** [++] does not carry a count past a double that lies above it. *)
Lemma jsIncrement_le (n t : Z) :
  n < t -> isDouble t = true -> jsIncrement n <= t.
Proof.
  intros Hlt Hdouble.
  pose proof (isDouble_even t Hdouble) as Heven.
  unfold jsIncrement, MAX_SAFE_INTEGER in *.
  compare_numbers; try lia.
  all: pose proof (Z.div_mod n 4 ltac:(lia)) as Hn.
  all: destruct (Z.eq_dec t (n + 1)) as [-> |]; [| lia].
  all: destruct Heven as [m Hm]; lia.
Qed.

Section Shape.
Context {W PrivateKey ContractKit : Type}.
Context {collaborators : Collaborators W PrivateKey ContractKit}.


End Shape.

Section Claims.
Context {W PrivateKey ContractKit : Type}.
Context {collaborators : Collaborators W PrivateKey ContractKit}.
Variable body : GetBlindedMessagePartialSigRequest.
Variables w0 w1 w2 w3 w4 w5 w6 w7 w8 : W.
Hypothesis Hvalid : isValidGetSignatureInput body = true.

(** C9.  A valid request that fails authentication is answered with 401
    "unauthenticated user" and nothing else happens: the authenticator is the
    only collaborator called (no quota or chain-height read, no key or
    signature, no request-store or counter access), and the world is the one
    the authenticator left. *)
Theorem unauthenticated_request_is_rejected :
  authenticateUser body getContractKit w0 = (Returned false, w1) ->
  let s := handle body w0 in
  sent (trace s) =
    [RespondWithError 401 (Warning UNAUTHENTICATED_USER) None None None] /\
  calls (trace s) = [(AuthenticateUser, Returns)] /\
  (forall c, c <> AuthenticateUser -> called c (trace s) = false) /\
  world s = w1.
Proof.
  intros Hauth. steps.
  all: repeat split; try reflexivity.
  all: intros [] Hc; try reflexivity; now elim Hc.
Qed.

Section Authenticated.
Hypothesis Hauth : authenticateUser body getContractKit w0 = (Returned true, w1).

(** C1.  When the quota lookup succeeds with
    [performedQueryCount >= totalQuota] (equality included), the handler
    answers 403 "exceeded quota" carrying the count and quota just read and
    the current block number (-1 if the chain-height read failed); the key
    provider and signature engine are not called, and neither are the
    request-store write and the counter increment. *)
Theorem quota_gate_rejects_at_or_above_quota (q : Quota.t) (ob : outcome Z) :
  getRemainingQueryCount (account body) (hashedPhoneNumber body) w1
    = (Returned q, w2) ->
  getBlockNumber w2 = (ob, w3) ->
  Quota.performedQueryCount q >= Quota.totalQuota q ->
  let s := handle body w0 in
  sent (trace s) =
    [RespondWithError 403 (Warning EXCEEDED_QUOTA)
       (Some (Quota.performedQueryCount q))
       (Some (Quota.totalQuota q))
       (Some (orSentinel ob))] /\
  calls (trace s) =
    [(AuthenticateUser, Returns); (GetRemainingQueryCount, Returns);
     (GetBlockNumber, completion ob)] /\
  called GetPrivateKey (trace s) = false /\
  called ComputeBlindedSignature (trace s) = false /\
  called GetRequestExists (trace s) = false /\
  called StoreRequest (trace s) = false /\
  called IncrementQueryCount (trace s) = false /\
  world s = w3.
Proof.
  intros Hquota Hblock Hover.
  assert (Hgate : (Quota.performedQueryCount q >=? Quota.totalQuota q) = true)
    by (rewrite Z.geb_leb; apply Z.leb_le; lia).
  destruct ob as [n | e]; steps; repeat split; reflexivity.
Qed.

Section Signed.
Variables (key : PrivateKey) (signature : string).
Hypothesis Hkey : getPrivateKey w3 = (Returned key, w4).
Hypothesis Hsig :
  computeBlindedSignature (blindedQueryPhoneNumber body) key w4
    = (Returned signature, w5).


(** C6 (amended).  On the non-duplicate path the store-request write and
    the counter increment are both attempted whatever the other returns; a
    [false] from the store adds only the store-failure tag, a [false] from
    the increment only the increment-failure tag, and the reply is sent all
    the same.  The count in the reply is the count held before when the
    increment returned [false], and that count after [++] when it returned
    [true]: one more for every count that is a safe integer (the sentinel
    -1 included). *)
Theorem writes_are_attempted_independently
    (oq : outcome Quota.t) (ob : outcome Z) (stored incremented : bool) :
  getRemainingQueryCount (account body) (hashedPhoneNumber body) w1 = (oq, w2) ->
  getBlockNumber w2 = (ob, w3) ->
  withinQuota oq ->
  getRequestExists body w5 = (Returned false, w6) ->
  storeRequest body w6 = (Returned stored, w7) ->
  incrementQueryCount (account body) w7 = (Returned incremented, w8) ->
  let s := handle body w0 in
  let l := {| errorMsgs :=
                readTags oq ob ++
                (if stored then [] else [Error FAILURE_TO_STORE_REQUEST]) ++
                (if incremented then []
                 else [Error FAILURE_TO_INCREMENT_QUERY_COUNT]);
              totalQuota := quotaOrSentinel oq;
              performedQueryCount :=
                if incremented then jsIncrement (countOrSentinel oq)
                else countOrSentinel oq;
              blockNumber := orSentinel ob |} in
  sent (trace s) = [Json200 (signMessageResponse signature l)] /\
  (isSafeInteger (countOrSentinel oq) = true ->
   SignMessageResponse.performedQueryCount (signMessageResponse signature l)
   = if incremented then countOrSentinel oq + 1 else countOrSentinel oq) /\
  calls (trace s) =
    [(AuthenticateUser, Returns);
     (GetRemainingQueryCount, completion oq); (GetBlockNumber, completion ob);
     (GetPrivateKey, Returns); (ComputeBlindedSignature, Returns);
     (GetRequestExists, Returns);
     (StoreRequest, Returns); (IncrementQueryCount, Returns)] /\
  world s = w8.
Proof.
  intros Hquota Hblock Hopen Hexists Hstore Hincrement.
  cbv zeta. split; [| split].
  - destruct oq as [q | equota], ob as [n | eheight].
    1, 2: assert (Hgate : (Quota.performedQueryCount q >=? Quota.totalQuota q) = false)
      by (rewrite Z.geb_leb; apply Z.leb_gt; now apply Hopen).
    all: steps; destruct stored, incremented; reflexivity.
  - intros Hsafe. cbn [signMessageResponse SignMessageResponse.performedQueryCount
                       performedQueryCount].
    destruct incremented; [exact (jsIncrement_safe _ Hsafe) | reflexivity].
  - destruct oq as [q | equota], ob as [n | eheight].
    1, 2: assert (Hgate : (Quota.performedQueryCount q >=? Quota.totalQuota q) = false)
      by (rewrite Z.geb_leb; apply Z.leb_gt; now apply Hopen).
    all: steps; destruct stored, incremented; split; reflexivity.
Qed.

Section Recorded.
Variables dup stored incremented : bool.
Hypothesis Hexists : getRequestExists body w5 = (Returned dup, w6).
Hypothesis Hwrites :
  dup = false ->
  storeRequest body w6 = (Returned stored, w7) /\
  incrementQueryCount (account body) w7 = (Returned incremented, w8).

(** Whatever the two reads did, a request that passes the quota gate and
    whose later collaborators all return is answered with one 200 reply,
    assembled from [servedLocals]. *)
Lemma served_reply (oq : outcome Quota.t) (ob : outcome Z) :
  getRemainingQueryCount (account body) (hashedPhoneNumber body) w1 = (oq, w2) ->
  getBlockNumber w2 = (ob, w3) ->
  withinQuota oq ->
  sent (trace (handle body w0))
    = [Json200 (signMessageResponse signature
                  (servedLocals oq ob dup stored incremented))] /\
  called ComputeBlindedSignature (trace (handle body w0)) = true.
Proof.
  intros Hquota Hblock Hopen. unfold servedLocals, writeTags.
  destruct dup.
  - destruct oq as [q | equota], ob as [n | eheight].
    1, 2: assert (Hgate : (Quota.performedQueryCount q >=? Quota.totalQuota q) = false)
      by (rewrite Z.geb_leb; apply Z.leb_gt; now apply Hopen).
    all: steps; split; reflexivity.
  - destruct (Hwrites eq_refl) as [Hstore Hincrement].
    destruct oq as [q | equota], ob as [n | eheight].
    1, 2: assert (Hgate : (Quota.performedQueryCount q >=? Quota.totalQuota q) = false)
      by (rewrite Z.geb_leb; apply Z.leb_gt; now apply Hopen).
    all: steps; destruct stored, incremented; split; reflexivity.
Qed.

Lemma withinQuota_Thrown (e : Exn) : withinQuota (Thrown e).
Proof. intros q Hq. discriminate Hq. Qed.

(** C2 (amended).  When the quota lookup fails, the locals
    [performedQueryCount] and [totalQuota] hold the sentinel -1 once the
    reads are settled, the quota gate does not reject, the signature engine
    is called, and the error list of the 200 reply starts with the
    contract-read-failure tag, which occurs once; it is the whole list when
    the request is not a duplicate and both writes return [true]. *)
Theorem failed_quota_lookup_does_not_block (e : Exn) (ob : outcome Z) :
  getRemainingQueryCount (account body) (hashedPhoneNumber body) w1
    = (Thrown e, w2) ->
  getBlockNumber w2 = (ob, w3) ->
  let s := handle body w0 in
  (forall tr,
     fst (resolveQuotaAndBlockNumber body {| world := w1; trace := tr |})
     = Returned (rejected e,
                 {| errorMsgs := [Error CONTRACT_GET_FAILURE];
                    totalQuota := -1;
                    performedQueryCount := -1;
                    blockNumber := orSentinel ob |})) /\
  (forall l, quotaExceeded (@rejected Quota.t e) l = false) /\
  called ComputeBlindedSignature (trace s) = true /\
  exists l,
    sent (trace s) = [Json200 (signMessageResponse signature l)] /\
    totalQuota l = -1 /\
    errorMsgs l
      = Error CONTRACT_GET_FAILURE :: writeTags dup stored incremented /\
    count_occ Message_eq_dec (errorMsgs l) (Error CONTRACT_GET_FAILURE) = 1%nat /\
    (dup = false -> stored = true -> incremented = true ->
     errorMsgs l = [Error CONTRACT_GET_FAILURE]).
Proof.
  intros Hquota Hblock.
  destruct (served_reply (Thrown e) ob Hquota Hblock (withinQuota_Thrown e))
    as [Hsent Hcalled].
  split; [| split; [| split; [exact Hcalled |]]].
  - intros tr. unfold_handler. repeat step. destruct ob; reflexivity.
  - reflexivity.
  - exists (servedLocals (Thrown e) ob dup stored incremented).
    split; [exact Hsent |].
    unfold servedLocals; cbn [errorMsgs totalQuota quotaOrSentinel readTags app].
    repeat split.
    + destruct dup, stored, incremented; reflexivity.
    + intros -> -> ->. reflexivity.
Qed.

(** C4 (amended).  The 200 reply carries the values last computed:
    [totalQuota] and [blockNumber] are the values read, or -1 for each whose
    read failed; [performedQueryCount] is the value read, or -1 when the
    quota lookup failed, after [++] exactly when the request was not a
    duplicate and the increment returned [true], which for a safe integer is
    one more.  After a failed quota lookup the reply therefore reports
    [totalQuota = -1], and [performedQueryCount = 0] when the increment
    succeeded and -1 when it did not. *)
Theorem reply_carries_last_computed_values
    (oq : outcome Quota.t) (ob : outcome Z) :
  getRemainingQueryCount (account body) (hashedPhoneNumber body) w1 = (oq, w2) ->
  getBlockNumber w2 = (ob, w3) ->
  withinQuota oq ->
  exists resp,
    sent (trace (handle body w0)) = [Json200 resp] /\
    SignMessageResponse.totalQuota resp = quotaOrSentinel oq /\
    SignMessageResponse.blockNumber resp = orSentinel ob /\
    SignMessageResponse.performedQueryCount resp
      = (if negb dup && incremented then jsIncrement (countOrSentinel oq)
         else countOrSentinel oq) /\
    (isSafeInteger (countOrSentinel oq) = true ->
     SignMessageResponse.performedQueryCount resp
       = (if negb dup && incremented then countOrSentinel oq + 1
          else countOrSentinel oq)) /\
    (forall e, oq = Thrown e ->
       SignMessageResponse.totalQuota resp = -1 /\
       SignMessageResponse.performedQueryCount resp
         = (if negb dup && incremented then 0 else -1)).
Proof.
  intros Hquota Hblock Hopen.
  destruct (served_reply oq ob Hquota Hblock Hopen) as [Hsent _].
  eexists. split; [exact Hsent |].
  cbn. split; [reflexivity |]. split; [reflexivity |]. split; [reflexivity |].
  split.
  - intros Hsafe. rewrite (jsIncrement_safe _ Hsafe). reflexivity.
  - intros e ->. split; [reflexivity |].
    destruct (negb dup && incremented); reflexivity.
Qed.

(** C8 (amended).  When the chain-height read fails and the quota lookup
    succeeds (within quota), the 200 reply carries the [totalQuota] read and
    the [performedQueryCount] read, the latter after [++] when the request
    was not a duplicate and the increment returned [true], which for a safe
    integer is one more; its [error] field starts with the
    contract-read-failure tag, followed by the tags of the duplicate check
    and the writes; and it reports [blockNumber = -1]. *)
Theorem failed_height_read_keeps_quota_values (q : Quota.t) (e : Exn) :
  getRemainingQueryCount (account body) (hashedPhoneNumber body) w1
    = (Returned q, w2) ->
  getBlockNumber w2 = (Thrown e, w3) ->
  Quota.performedQueryCount q < Quota.totalQuota q ->
  exists resp,
    sent (trace (handle body w0)) = [Json200 resp] /\
    SignMessageResponse.totalQuota resp = Quota.totalQuota q /\
    SignMessageResponse.performedQueryCount resp
      = (if negb dup && incremented
         then jsIncrement (Quota.performedQueryCount q)
         else Quota.performedQueryCount q) /\
    (isSafeInteger (Quota.performedQueryCount q) = true ->
     SignMessageResponse.performedQueryCount resp
       = (if negb dup && incremented then Quota.performedQueryCount q + 1
          else Quota.performedQueryCount q)) /\
    SignMessageResponse.blockNumber resp = -1 /\
    SignMessageResponse.success resp = false /\
    SignMessageResponse.error resp
      = Some (String.concat ", "
                (map messageText
                   (Error CONTRACT_GET_FAILURE
                    :: writeTags dup stored incremented))).
Proof.
  intros Hquota Hblock Hlt.
  assert (Hopen : withinQuota (Returned q)).
  { intros q' Hq'. injection Hq' as <-. exact Hlt. }
  destruct (served_reply (Returned q) (Thrown e) Hquota Hblock Hopen) as [Hsent _].
  eexists. split; [exact Hsent |].
  cbn. split; [reflexivity |]. split; [reflexivity |].
  split; [| repeat split].
  intros Hsafe. rewrite (jsIncrement_safe _ Hsafe). reflexivity.
Qed.

(** C10.  When the quota lookup and the chain-height read both fail, the
    error list of the reply holds the contract-read-failure tag exactly
    once: it is the first entry, followed only by the tags of the duplicate
    check and the writes. *)
Theorem both_reads_failing_tag_once (equota eheight : Exn) :
  getRemainingQueryCount (account body) (hashedPhoneNumber body) w1
    = (Thrown equota, w2) ->
  getBlockNumber w2 = (Thrown eheight, w3) ->
  exists l,
    sent (trace (handle body w0)) = [Json200 (signMessageResponse signature l)] /\
    errorMsgs l
      = Error CONTRACT_GET_FAILURE :: writeTags dup stored incremented /\
    count_occ Message_eq_dec (errorMsgs l) (Error CONTRACT_GET_FAILURE) = 1%nat.
Proof.
  intros Hquota Hblock.
  destruct (served_reply (Thrown equota) (Thrown eheight) Hquota Hblock
              (withinQuota_Thrown equota)) as [Hsent _].
  exists (servedLocals (Thrown equota) (Thrown eheight) dup stored incremented).
  split; [exact Hsent |]. split; [reflexivity |].
  destruct dup, stored, incremented; reflexivity.
Qed.

(** How the reply of such a request sets [success] and [error], given
    what the collaborators returned. *)
Lemma served_reply_flags (oq : outcome Quota.t) (ob : outcome Z) :
  getRemainingQueryCount (account body) (hashedPhoneNumber body) w1 = (oq, w2) ->
  getBlockNumber w2 = (ob, w3) ->
  withinQuota oq ->
  exists resp,
    sent (trace (handle body w0)) = [Json200 resp] /\
    (SignMessageResponse.success resp = true <->
     collectedTags oq ob dup stored incremented = []) /\
    (SignMessageResponse.error resp <> None <->
     SignMessageResponse.success resp = false) /\
    (SignMessageResponse.success resp = false ->
     SignMessageResponse.error resp
       = Some (String.concat ", "
                 (map messageText
                    (collectedTags oq ob dup stored incremented)))).
Proof.
  intros Hquota Hblock Hopen.
  destruct (served_reply oq ob Hquota Hblock Hopen) as [Hsent _].
  eexists. split; [exact Hsent |].
  unfold signMessageResponse, servedLocals, joinErrorMsgs, readTags, writeTags,
    collectedTags.
  cbn [SignMessageResponse.success SignMessageResponse.error errorMsgs].
  destruct oq as [q | equota], ob as [n | eheight];
    destruct dup, stored, incremented; cbn [negb andb app List.length Nat.eqb].
  all: split; [split; intros H; first [reflexivity | discriminate H] |].
  all: split; [split; intros H; first [reflexivity | discriminate H | now elim H] |].
  all: intros H; first [reflexivity | discriminate H].
Qed.

End Recorded.
End Signed.
End Authenticated.
End Claims.

(** Case analysis on the next collaborator call that keeps what the call
    returned. *)
Ltac next_call_recorded :=
  match goal with
  | |- context [authenticateUser ?b ?k ?w] =>
      destruct (authenticateUser b k w) as [[[|] | ?] ?] eqn:?
  | |- context [getRemainingQueryCount ?a ?h ?w] =>
      destruct (getRemainingQueryCount a h w) as [[? | ?] ?] eqn:?
  | |- context [getBlockNumber ?w] =>
      destruct (getBlockNumber w) as [[? | ?] ?] eqn:?
  | |- context [getPrivateKey ?w] =>
      destruct (getPrivateKey w) as [[? | ?] ?] eqn:?
  | |- context [computeBlindedSignature ?b ?k ?w] =>
      destruct (computeBlindedSignature b k w) as [[? | ?] ?] eqn:?
  | |- context [getRequestExists ?b ?w] =>
      destruct (getRequestExists b w) as [[[|] | ?] ?] eqn:?
  | |- context [storeRequest ?b ?w] =>
      destruct (storeRequest b w) as [[[|] | ?] ?] eqn:?
  | |- context [incrementQueryCount ?a ?w] =>
      destruct (incrementQueryCount a w) as [[[|] | ?] ?] eqn:?
  | |- context [Z.geb ?x ?y] =>
      let Hgate := fresh "Hgate" in
      destruct (Z.geb x y) eqn:Hgate;
      [ apply Z.geb_le in Hgate
      | rewrite Z.geb_leb in Hgate; apply Z.leb_gt in Hgate ]
  end;
  cbn.

Section Replies.
Context {W PrivateKey ContractKit : Type}.
Context {collaborators : Collaborators W PrivateKey ContractKit}.
Variable body : GetBlindedMessagePartialSigRequest.
Variable w0 : W.

(** A 200 reply is only ever sent by a call in which every collaborator
    returned and both gates were passed. *)
Lemma reply_200_only_when_recorded (resp : SignMessageResponse.t) :
  sent (trace (handle body w0)) = [Json200 resp] ->
  exists oq ob dup stored incremented,
    recorded body w0 oq ob dup stored incremented.
Proof.
  unfold recorded. unfold_handler.
  destruct (truthy (sessionID body));
    destruct (isValidGetSignatureInput body); cbn; repeat next_call_recorded.
  all: intros Hsent; try discriminate Hsent.
  all: clear Hsent.
  all: do 15 eexists.
  all: split; [reflexivity |].
  all: split; [reflexivity |].
  all: split; [eassumption |].
  all: split; [eassumption |].
  all: split;
    [ intros q' Hq'; first [discriminate Hq' | injection Hq' as <-; assumption] |].
  all: split; [eassumption |].
  all: split; [eassumption |].
  all: split; [eassumption |].
  all: intros Hdup; first [discriminate Hdup | split; eassumption].
  Unshelve.
  all: first [exact w0 | exact true].
Qed.

(** C5.  Every 200 reply comes from a call whose collaborators returned
    ([recorded]), and [success] and [error] are set from the tags that call
    collected ([collectedTags]): [success] is [true] exactly when no tag
    was collected, [error] is present exactly when [success] is [false],
    and it is then the texts of the collected tags joined with the
    separator [", "], in the order contract-read failure, duplicate
    request, store failure, increment failure. *)
Theorem reply_200_success_and_error (resp : SignMessageResponse.t) :
  sent (trace (handle body w0)) = [Json200 resp] ->
  exists oq ob dup stored incremented,
    recorded body w0 oq ob dup stored incremented /\
    (SignMessageResponse.success resp = true <->
     collectedTags oq ob dup stored incremented = []) /\
    (SignMessageResponse.error resp <> None <->
     SignMessageResponse.success resp = false) /\
    (SignMessageResponse.success resp = false ->
     SignMessageResponse.error resp
       = Some (String.concat ", "
                 (map messageText
                    (collectedTags oq ob dup stored incremented)))).
Proof.
  intros Hsent.
  destruct (reply_200_only_when_recorded resp Hsent)
    as (oq & ob & dup & stored & incremented & Hrecorded).
  exists oq, ob, dup, stored, incremented. split; [exact Hrecorded |].
  destruct Hrecorded
    as (w1 & w2 & w3 & w4 & w5 & w6 & w7 & w8 & key & signature
        & Hvalid & Hauth & Hquota & Hblock & Hopen & Hkey & Hsig
        & Hexists & Hwrites).
  destruct (served_reply_flags body w0 w1 w2 w3 w4 w5 w6 w7 w8 Hvalid Hauth
              key signature Hkey Hsig dup stored incremented Hexists Hwrites
              oq ob Hquota Hblock Hopen)
    as (resp' & Hsent' & Hflags).
  rewrite Hsent in Hsent'. injection Hsent' as <-. exact Hflags.
Qed.

End Replies.

(** ** The theorems at work on the scripted collaborators *)

Lemma unauthenticated_request_witness :
  let s := Mock.served Mock.unauthenticated in
  sent (trace s) =
    [RespondWithError 401 (Warning UNAUTHENTICATED_USER) None None None] /\
  calls (trace s) = [(AuthenticateUser, Returns)] /\
  (forall c, c <> AuthenticateUser -> called c (trace s) = false) /\
  world s = [].
Proof.
  exact (@unauthenticated_request_is_rejected _ _ _
           (Mock.collaborators Mock.unauthenticated) Mock.request [] []
           eq_refl eq_refl).
Defined.

Lemma quota_gate_witness :
  let s := Mock.served Mock.exhausted in
  sent (trace s) =
    [RespondWithError 403 (Warning EXCEEDED_QUOTA) (Some 10) (Some 10) (Some 500)] /\
  calls (trace s) =
    [(AuthenticateUser, Returns); (GetRemainingQueryCount, Returns);
     (GetBlockNumber, Returns)] /\
  called GetPrivateKey (trace s) = false /\
  called ComputeBlindedSignature (trace s) = false /\
  called GetRequestExists (trace s) = false /\
  called StoreRequest (trace s) = false /\
  called IncrementQueryCount (trace s) = false /\
  world s = [].
Proof.
  refine (@quota_gate_rejects_at_or_above_quota _ _ _
            (Mock.collaborators Mock.exhausted) Mock.request [] [] [] []
            eq_refl eq_refl
            {| Quota.performedQueryCount := 10; Quota.totalQuota := 10 |}
            (Returned 500) eq_refl eq_refl _).
  cbn. lia.
Defined.



Lemma independent_writes_witness :
  let s := Mock.served Mock.storeFails in
  sent (trace s)
    = [Json200 (Mock.response 3 10 500 (Some "FAILURE_TO_STORE_REQUEST"))] /\
  (isSafeInteger 2 = true ->
   SignMessageResponse.performedQueryCount
     (Mock.response 3 10 500 (Some "FAILURE_TO_STORE_REQUEST")) = 2 + 1) /\
  calls (trace s) =
    [(AuthenticateUser, Returns);
     (GetRemainingQueryCount, Returns); (GetBlockNumber, Returns);
     (GetPrivateKey, Returns); (ComputeBlindedSignature, Returns);
     (GetRequestExists, Returns);
     (StoreRequest, Returns); (IncrementQueryCount, Returns)] /\
  world s = [Mock.IncrementedQueryCount "0xAA"].
Proof.
  refine (@writes_are_attempted_independently _ _ _
            (Mock.collaborators Mock.storeFails) Mock.request
            [] [] [] [] [] [] [] [] [Mock.IncrementedQueryCount "0xAA"]
            eq_refl eq_refl "key" "S" eq_refl eq_refl
            (Returned {| Quota.performedQueryCount := 2; Quota.totalQuota := 10 |})
            (Returned 500) false true
            eq_refl eq_refl _ eq_refl eq_refl eq_refl).
  intros q Hq. injection Hq as <-. cbn. lia.
Defined.

(** C6, as stated, fails once the count has left the safe integers: the
    quota lookup returns 2^53 of 2^53 + 2, the request is new, both writes
    return [true], and the 200 reply reports 2^53 again, not 2^53 + 1. *)
Lemma increment_at_two_to_53_leaves_count :
  let s := Mock.served Mock.countAtTwoTo53 in
  let resp := Mock.response 9007199254740992 9007199254740994 500 None in
  getRemainingQueryCount (Collaborators := Mock.collaborators Mock.countAtTwoTo53)
    (account Mock.request) (hashedPhoneNumber Mock.request) []
    = (Returned {| Quota.performedQueryCount := 9007199254740992;
                   Quota.totalQuota := 9007199254740994 |}, []) /\
  isDouble 9007199254740992 = true /\
  isDouble 9007199254740994 = true /\
  calls (trace s) =
    [(AuthenticateUser, Returns);
     (GetRemainingQueryCount, Returns); (GetBlockNumber, Returns);
     (GetPrivateKey, Returns); (ComputeBlindedSignature, Returns);
     (GetRequestExists, Returns);
     (StoreRequest, Returns); (IncrementQueryCount, Returns)] /\
  incrementQueryCount (Collaborators := Mock.collaborators Mock.countAtTwoTo53)
    (account Mock.request) Mock.stored = (Returned true, Mock.storedAndCounted) /\
  world s = Mock.storedAndCounted /\
  sent (trace s) = [Json200 resp] /\
  SignMessageResponse.performedQueryCount resp = 9007199254740992 /\
  SignMessageResponse.performedQueryCount resp <> 9007199254740992 + 1.
Proof.
  cbv zeta. repeat split. discriminate.
Qed.

Lemma failed_quota_lookup_witness :
  let s := Mock.served Mock.quotaDown in
  (forall tr,
     fst (@resolveQuotaAndBlockNumber _ _ _ (Mock.collaborators Mock.quotaDown)
            Mock.request {| world := []; trace := tr |})
     = Returned (rejected (JsError "unavailable"),
                 {| errorMsgs := [Error CONTRACT_GET_FAILURE];
                    totalQuota := -1;
                    performedQueryCount := -1;
                    blockNumber := 500 |})) /\
  (forall l, quotaExceeded (@rejected Quota.t (JsError "unavailable")) l = false) /\
  called ComputeBlindedSignature (trace s) = true /\
  exists l,
    sent (trace s)
      = [Json200 (@signMessageResponse _ _ _ (Mock.collaborators Mock.quotaDown)
                    "S" l)] /\
    totalQuota l = -1 /\
    errorMsgs l = [Error CONTRACT_GET_FAILURE] /\
    count_occ Message_eq_dec (errorMsgs l) (Error CONTRACT_GET_FAILURE) = 1%nat /\
    (false = false -> true = true -> true = true ->
     errorMsgs l = [Error CONTRACT_GET_FAILURE]).
Proof.
  refine (@failed_quota_lookup_does_not_block _ _ _
            (Mock.collaborators Mock.quotaDown) Mock.request
            [] [] [] [] [] [] [] Mock.stored Mock.storedAndCounted
            eq_refl eq_refl "key" "S" eq_refl eq_refl
            false true true eq_refl _
            (JsError "unavailable") (Returned 500) eq_refl eq_refl).
  intros _. split; reflexivity.
Defined.

(** C2, as stated, fails on a resubmitted request: the quota lookup throws,
    the reply is a 200, and its error list holds the duplicate tag next to
    the contract-read tag, so no reading of the reply has the contract-read
    tag as its only entry. *)
Lemma failed_quota_lookup_error_list_not_single :
  let s := Mock.served Mock.quotaDownResubmitted in
  let resp :=
    Mock.response (-1) (-1) 500
      (Some "CONTRACT_GET_FAILURE, DUPLICATE_REQUEST_TO_GET_PARTIAL_SIG") in
  threw GetRemainingQueryCount (trace s) = true /\
  sent (trace s) = [Json200 resp] /\
  resp = @signMessageResponse _ _ _ (Mock.collaborators Mock.quotaDownResubmitted)
           "S"
           {| errorMsgs := [Error CONTRACT_GET_FAILURE;
                            Warning DUPLICATE_REQUEST_TO_GET_PARTIAL_SIG];
              totalQuota := -1; performedQueryCount := -1; blockNumber := 500 |} /\
  (forall sg l,
     resp = @signMessageResponse _ _ _
              (Mock.collaborators Mock.quotaDownResubmitted) sg l ->
     errorMsgs l <> [Error CONTRACT_GET_FAILURE]).
Proof.
  cbv zeta. repeat split.
  intros sg l Hresp Hl.
  apply (f_equal SignMessageResponse.error) in Hresp.
  unfold signMessageResponse in Hresp; cbn in Hresp.
  rewrite Hl in Hresp. cbn in Hresp. discriminate Hresp.
Qed.

Lemma last_computed_values_witness :
  exists resp,
    sent (trace (Mock.served Mock.quotaDown)) = [Json200 resp] /\
    SignMessageResponse.totalQuota resp = -1 /\
    SignMessageResponse.blockNumber resp = 500 /\
    SignMessageResponse.performedQueryCount resp = jsIncrement (-1) /\
    (isSafeInteger (-1) = true ->
     SignMessageResponse.performedQueryCount resp = -1 + 1) /\
    (forall e, @Thrown Quota.t (JsError "unavailable") = Thrown e ->
       SignMessageResponse.totalQuota resp = -1 /\
       SignMessageResponse.performedQueryCount resp = 0).
Proof.
  refine (@reply_carries_last_computed_values _ _ _
            (Mock.collaborators Mock.quotaDown) Mock.request
            [] [] [] [] [] [] [] Mock.stored Mock.storedAndCounted
            eq_refl eq_refl "key" "S" eq_refl eq_refl
            false true true eq_refl _
            (Thrown (JsError "unavailable")) (Returned 500) eq_refl eq_refl _).
  - intros _. split; reflexivity.
  - intros q Hq. discriminate Hq.
Defined.

(** C4, as stated, fails on a fresh request: the quota lookup throws, both
    writes go through, and the 200 reply reports [performedQueryCount = 0],
    the sentinel plus one, not -1. *)
Lemma failed_quota_lookup_reply_reports_zero :
  let s := Mock.served Mock.quotaDown in
  let resp := Mock.response 0 (-1) 500 (Some "CONTRACT_GET_FAILURE") in
  threw GetRemainingQueryCount (trace s) = true /\
  sent (trace s) = [Json200 resp] /\
  SignMessageResponse.performedQueryCount resp = 0 /\
  SignMessageResponse.performedQueryCount resp <> -1.
Proof.
  cbv zeta. repeat split. discriminate.
Qed.

Lemma failed_height_read_witness :
  exists resp,
    sent (trace (Mock.served Mock.heightDown)) = [Json200 resp] /\
    SignMessageResponse.totalQuota resp = 10 /\
    SignMessageResponse.performedQueryCount resp = jsIncrement 2 /\
    (isSafeInteger 2 = true ->
     SignMessageResponse.performedQueryCount resp = 2 + 1) /\
    SignMessageResponse.blockNumber resp = -1 /\
    SignMessageResponse.success resp = false /\
    SignMessageResponse.error resp = Some "CONTRACT_GET_FAILURE".
Proof.
  refine (@failed_height_read_keeps_quota_values _ _ _
            (Mock.collaborators Mock.heightDown) Mock.request
            [] [] [] [] [] [] [] Mock.stored Mock.storedAndCounted
            eq_refl eq_refl "key" "S" eq_refl eq_refl
            false true true eq_refl _
            {| Quota.performedQueryCount := 2; Quota.totalQuota := 10 |}
            (JsError "unavailable") eq_refl eq_refl _).
  - intros _. split; reflexivity.
  - cbn. lia.
Defined.

(** C8, as stated, fails on a fresh request: the quota lookup returns 2 of
    10, the chain-height read throws, both writes go through, and the 200
    reply carries [performedQueryCount = 3], not the 2 that was looked up. *)
Lemma failed_height_read_reply_reports_incremented_count :
  let s := Mock.served Mock.heightDown in
  let resp := Mock.response 3 10 (-1) (Some "CONTRACT_GET_FAILURE") in
  getRemainingQueryCount (Collaborators := Mock.collaborators Mock.heightDown)
    (account Mock.request) (hashedPhoneNumber Mock.request) []
    = (Returned {| Quota.performedQueryCount := 2; Quota.totalQuota := 10 |}, []) /\
  threw GetBlockNumber (trace s) = true /\
  sent (trace s) = [Json200 resp] /\
  SignMessageResponse.performedQueryCount resp <> 2.
Proof.
  cbv zeta. repeat split. discriminate.
Qed.

Lemma both_reads_failing_witness :
  exists l,
    sent (trace (Mock.served Mock.chainDown))
      = [Json200 (@signMessageResponse _ _ _ (Mock.collaborators Mock.chainDown)
                    "S" l)] /\
    errorMsgs l = Error CONTRACT_GET_FAILURE :: writeTags false true true /\
    count_occ Message_eq_dec (errorMsgs l) (Error CONTRACT_GET_FAILURE) = 1%nat.
Proof.
  refine (@both_reads_failing_tag_once _ _ _
            (Mock.collaborators Mock.chainDown) Mock.request
            [] [] [] [] [] [] [] Mock.stored Mock.storedAndCounted
            eq_refl eq_refl "key" "S" eq_refl eq_refl
            false true true eq_refl _
            (JsError "unavailable") (JsError "unavailable") eq_refl eq_refl).
  intros _. split; reflexivity.
Defined.

Lemma reply_200_witness :
  exists oq ob dup stored incremented,
    @recorded _ _ _ (Mock.collaborators Mock.degraded) Mock.request []
      oq ob dup stored incremented /\
    (SignMessageResponse.success
       (Mock.response (-1) (-1) 500
          (Some ("CONTRACT_GET_FAILURE, FAILURE_TO_STORE_REQUEST, "
                 ++ "FAILURE_TO_INCREMENT_QUERY_COUNT")%string)) = true <->
     collectedTags oq ob dup stored incremented = []) /\
    (SignMessageResponse.error
       (Mock.response (-1) (-1) 500
          (Some ("CONTRACT_GET_FAILURE, FAILURE_TO_STORE_REQUEST, "
                 ++ "FAILURE_TO_INCREMENT_QUERY_COUNT")%string)) <> None <->
     SignMessageResponse.success
       (Mock.response (-1) (-1) 500
          (Some ("CONTRACT_GET_FAILURE, FAILURE_TO_STORE_REQUEST, "
                 ++ "FAILURE_TO_INCREMENT_QUERY_COUNT")%string)) = false) /\
    (SignMessageResponse.success
       (Mock.response (-1) (-1) 500
          (Some ("CONTRACT_GET_FAILURE, FAILURE_TO_STORE_REQUEST, "
                 ++ "FAILURE_TO_INCREMENT_QUERY_COUNT")%string)) = false ->
     SignMessageResponse.error
       (Mock.response (-1) (-1) 500
          (Some ("CONTRACT_GET_FAILURE, FAILURE_TO_STORE_REQUEST, "
                 ++ "FAILURE_TO_INCREMENT_QUERY_COUNT")%string))
       = Some (String.concat ", "
                 (map Mock.text (collectedTags oq ob dup stored incremented)))).
Proof.
  exact (@reply_200_success_and_error _ _ _
           (Mock.collaborators Mock.degraded) Mock.request []
           (Mock.response (-1) (-1) 500
              (Some ("CONTRACT_GET_FAILURE, FAILURE_TO_STORE_REQUEST, "
                     ++ "FAILURE_TO_INCREMENT_QUERY_COUNT")%string))
           eq_refl).
Defined.

(** The reply of the scripted signer whose quota lookup rejects and whose
    two writes report failure: three tags, in the order collected. *)
Example degraded_reply :
  @recorded _ _ _ (Mock.collaborators Mock.degraded) Mock.request []
    (Thrown (JsError "unavailable")) (Returned 500) false false false /\
  collectedTags (@Thrown Quota.t (JsError "unavailable")) (Returned 500)
    false false false
  = [Error CONTRACT_GET_FAILURE; Error FAILURE_TO_STORE_REQUEST;
     Error FAILURE_TO_INCREMENT_QUERY_COUNT] /\
  sent (trace (Mock.served Mock.degraded))
  = [Json200
       {| SignMessageResponse.success := false;
          SignMessageResponse.signature := "S";
          SignMessageResponse.version := "1.0.0";
          SignMessageResponse.performedQueryCount := -1;
          SignMessageResponse.totalQuota := -1;
          SignMessageResponse.blockNumber := 500;
          SignMessageResponse.error :=
            Some ("CONTRACT_GET_FAILURE, FAILURE_TO_STORE_REQUEST, "
                  ++ "FAILURE_TO_INCREMENT_QUERY_COUNT")%string |}].
Proof.
  split; [| split; reflexivity].
  exists [], [], [], [], [], [], [], [], "key", "S".
  repeat split. intros q Hq. discriminate Hq.
Qed.


(** The signature engine throwing: the reply is the 500, nothing is called
    after the engine, and the failed chain-height read before it has left
    no trace in the reply. *)
Example engine_throw_is_a_500 :
  let tr := trace (Mock.served Mock.engineThrows) in
  sent tr = [RespondWithError 500 (Error UNKNOWN_ERROR) None None None] /\
  calls tr =
    [(AuthenticateUser, Returns);
     (GetRemainingQueryCount, Returns); (GetBlockNumber, Throws);
     (GetPrivateKey, Returns); (ComputeBlindedSignature, Throws)] /\
  world (Mock.served Mock.engineThrows) = [].
Proof. repeat split. Qed.

(** ** Two calls in a row

    The spec's resubmission scenario on the in-memory ledger: the first call
    is answered with count 3 of 10 at height 500 and leaves two writes; the
    same request sent again is answered with the same signature and count,
    carries the duplicate tag, and leaves the database as it was. *)
Example resubmission_on_the_ledger :
  let first := Ledger.served [] in
  let second := Ledger.served (world first) in
  sent (trace first)
    = [Json200 {| SignMessageResponse.success := true;
                  SignMessageResponse.signature := "S:B1";
                  SignMessageResponse.version := "1.0.0";
                  SignMessageResponse.performedQueryCount := 3;
                  SignMessageResponse.totalQuota := 10;
                  SignMessageResponse.blockNumber := 500;
                  SignMessageResponse.error := None |}] /\
  world first = Mock.storedAndCounted /\
  sent (trace second)
    = [Json200 {| SignMessageResponse.success := false;
                  SignMessageResponse.signature := "S:B1";
                  SignMessageResponse.version := "1.0.0";
                  SignMessageResponse.performedQueryCount := 3;
                  SignMessageResponse.totalQuota := 10;
                  SignMessageResponse.blockNumber := 500;
                  SignMessageResponse.error :=
                    Some "DUPLICATE_REQUEST_TO_GET_PARTIAL_SIG" |}] /\
  world second = world first.
Proof.
  cbv zeta. repeat split; vm_compute; reflexivity.
Qed.

(** ** Further properties of the handler *)

(** Case analysis on the next collaborator call that keeps what the quota
    comparison decided. *)
Ltac next_call_eq :=
  match goal with
  | |- context [authenticateUser ?b ?k ?w] =>
      destruct (authenticateUser b k w) as [[[|] | ?] ?]
  | |- context [getRemainingQueryCount ?a ?h ?w] =>
      destruct (getRemainingQueryCount a h w) as [[[? ?] | ?] ?]
  | |- context [getBlockNumber ?w] =>
      destruct (getBlockNumber w) as [[? | ?] ?]
  | |- context [getPrivateKey ?w] =>
      destruct (getPrivateKey w) as [[? | ?] ?]
  | |- context [computeBlindedSignature ?b ?k ?w] =>
      destruct (computeBlindedSignature b k w) as [[? | ?] ?]
  | |- context [getRequestExists ?b ?w] =>
      destruct (getRequestExists b w) as [[[|] | ?] ?]
  | |- context [storeRequest ?b ?w] =>
      destruct (storeRequest b w) as [[[|] | ?] ?]
  | |- context [incrementQueryCount ?a ?w] =>
      destruct (incrementQueryCount a w) as [[[|] | ?] ?]
  | |- context [Z.geb ?x ?y] =>
      let Hgate := fresh "Hgate" in
      destruct (Z.geb x y) eqn:Hgate;
      [ apply Z.geb_le in Hgate
      | rewrite Z.geb_leb in Hgate; apply Z.leb_gt in Hgate ]
  end;
  cbn.

Ltac all_paths_eq :=
  unfold_handler;
  match goal with
  | |- context [truthy ?session] => destruct (truthy session)
  end;
  match goal with
  | |- context [isValidGetSignatureInput ?b] =>
      destruct (isValidGetSignatureInput b)
  end;
  cbn; repeat next_call_eq.

Section Effects.
Context {W PrivateKey ContractKit : Type}.
Context {collaborators : Collaborators W PrivateKey ContractKit}.
Variable body : GetBlindedMessagePartialSigRequest.
Variable w : W.

(** X1.  A request that any one of the five validators turns down is
    answered with 400 "invalid input"; no collaborator is called, not even
    the authenticator, and the world is untouched. *)
Theorem invalid_input_is_rejected :
  hasValidAccountParam body = false \/
  hasValidQueryPhoneNumberParam body = false \/
  phoneNumberHashIsValidIfExists body = false \/
  isBodyReasonablySized body = false \/
  hasValidTimestamp body = false ->
  let s := handle body w in
  sent (trace s) = [RespondWithError 400 (Warning INVALID_INPUT) None None None] /\
  calls (trace s) = [] /\
  world s = w.
Proof.
  intros Hbad.
  assert (Hinvalid : isValidGetSignatureInput body = false).
  { unfold isValidGetSignatureInput.
    destruct Hbad as [H | [H | [H | [H | H]]]]; rewrite H;
      repeat rewrite andb_false_r; reflexivity. }
  steps; repeat split; reflexivity.
Qed.

(** X2.  The signature engine is only ever called for a request that passed
    validation, for which the authenticator returned [true], and whose quota
    lookup either failed or showed fewer queries performed than the quota
    allows. *)
Theorem signature_only_after_all_gates :
  called ComputeBlindedSignature (trace (handle body w)) = true ->
  isValidGetSignatureInput body = true /\
  fst (authenticateUser body getContractKit w) = Returned true /\
  withinQuota
    (fst (getRemainingQueryCount (account body) (hashedPhoneNumber body)
            (snd (authenticateUser body getContractKit w)))).
Proof.
  all_paths_eq.
  all: intros Hcalled; try discriminate Hcalled.
  all: repeat split.
  all: intros q Hq; try discriminate Hq.
  all: injection Hq as <-; cbn; lia.
Qed.

(** X3.  In every run the collaborators are called in the fixed order
    authenticator, quota lookup, chain-height read, key provider, signature
    engine, duplicate check, store write, counter increment, each at most
    once and none skipped: the calls made are always an initial stretch of
    that sequence.  In particular the duplicate check comes after the
    signature and before either write. *)
Theorem collaborators_called_in_order :
  exists n, map fst (calls (trace (handle body w))) = firstn n callOrder.
Proof.
  all_paths.
  all: first [ exists 0%nat; reflexivity | exists 1%nat; reflexivity
             | exists 2%nat; reflexivity | exists 3%nat; reflexivity
             | exists 4%nat; reflexivity | exists 5%nat; reflexivity
             | exists 6%nat; reflexivity | exists 7%nat; reflexivity
             | exists 8%nat; reflexivity ].
Qed.

(** X4.  The quota lookup and the chain-height read are issued together: a
    run makes both or neither, so a throwing quota lookup never keeps the
    chain-height read from being made. *)
Theorem reads_are_issued_together :
  called GetRemainingQueryCount (trace (handle body w))
  = called GetBlockNumber (trace (handle body w)).
Proof. all_paths; reflexivity. Qed.

(** X5.  Once a collaborator other than the two chain reads throws, nothing
    more is called: the throwing call is the last in the log, and the
    200-responses counter is not incremented. *)
Theorem nothing_is_called_after_a_propagating_throw (c : Collaborator) :
  c <> GetRemainingQueryCount -> c <> GetBlockNumber ->
  threw c (trace (handle body w)) = true ->
  (exists before, calls (trace (handle body w)) = before ++ [(c, Throws)]) /\
  bumps Responses200 (trace (handle body w)) = 0%nat.
Proof.
  all_paths.
  all: intros Hq Hb Hthrew; destruct c;
    first [ discriminate Hthrew | now elim Hq | now elim Hb | idtac ].
  all: split; [| reflexivity].
  all: match goal with
       | |- exists before, ?l = _ => exists (removelast l); reflexivity
       end.
Qed.

Lemma session_counter_by_truthiness :
  bumps Requests (trace (handle body w)) = 1%nat /\
  hd_error (trace (handle body w)) = Some (Inc Requests) /\
  bumps SignatureRequestsWithoutSessionID (trace (handle body w))
  = if truthy (sessionID body) then 0%nat else 1%nat.
Proof. all_paths; repeat split; reflexivity. Qed.

(** X6.  Every call increments the requests counter exactly once, before
    anything else happens.  The missing-session counter is incremented once
    when [sessionID] is absent or the empty string, and not at all when it
    is a non-empty string, whatever becomes of the request. *)
Theorem request_counters :
  bumps Requests (trace (handle body w)) = 1%nat /\
  hd_error (trace (handle body w)) = Some (Inc Requests) /\
  (sessionID body = None \/ sessionID body = Some "" ->
   bumps SignatureRequestsWithoutSessionID (trace (handle body w)) = 1%nat) /\
  (forall s, sessionID body = Some s -> s <> "" ->
   bumps SignatureRequestsWithoutSessionID (trace (handle body w)) = 0%nat).
Proof.
  destruct session_counter_by_truthiness as (Hreq & Hhd & Hsession).
  split; [exact Hreq |]. split; [exact Hhd |]. rewrite Hsession. split.
  - intros [-> | ->]; reflexivity.
  - intros s -> Hs. cbn.
    destruct (String.eqb_spec s ""); [now elim Hs | reflexivity].
Qed.

(** X7.  The 200-responses counter is incremented exactly once in a run
    that sends a 200 reply and never in a run that sends an error reply. *)
Theorem responses_200_counter_matches_reply :
  ((exists resp, sent (trace (handle body w)) = [Json200 resp]) /\
   bumps Responses200 (trace (handle body w)) = 1%nat) \/
  ((exists status msg p t b,
      sent (trace (handle body w)) = [RespondWithError status msg p t b]) /\
   bumps Responses200 (trace (handle body w)) = 0%nat).
Proof.
  all_paths.
  all: first [ left; split; [eexists; reflexivity | reflexivity]
             | right; split; [do 5 eexists; reflexivity | reflexivity] ].
Qed.

(** X8.  The blockchain-errors counter is incremented once in a run where
    the quota lookup or the chain-height read threw (once also when both
    did), and not at all otherwise; this holds whichever reply follows. *)
Theorem blockchain_error_counter :
  bumps BlockchainErrorsRead (trace (handle body w))
  = if threw GetRemainingQueryCount (trace (handle body w))
       || threw GetBlockNumber (trace (handle body w))
    then 1%nat else 0%nat.
Proof. all_paths; reflexivity. Qed.

(** X9.  An error reply is one of four: 400 "invalid input" (only for a
    request that failed validation), 401 "unauthenticated user", 403
    "exceeded quota" or 500 "unknown error".  Only the 403 carries numbers,
    and it does so only after a quota lookup that returned, with a count
    that is at least the quota. *)
Theorem error_replies_are_one_of_four :
  forall status msg p t b,
    sent (trace (handle body w)) = [RespondWithError status msg p t b] ->
    (status = 400 /\ msg = Warning INVALID_INPUT /\
     p = None /\ t = None /\ b = None /\
     isValidGetSignatureInput body = false) \/
    (status = 401 /\ msg = Warning UNAUTHENTICATED_USER /\
     p = None /\ t = None /\ b = None) \/
    (status = 403 /\ msg = Warning EXCEEDED_QUOTA /\
     threw GetRemainingQueryCount (trace (handle body w)) = false /\
     exists performed total height,
       p = Some performed /\ t = Some total /\ b = Some height /\
       performed >= total) \/
    (status = 500 /\ msg = Error UNKNOWN_ERROR /\
     p = None /\ t = None /\ b = None).
Proof.
  all_paths_eq.
  all: intros status msg p t b Hsent; try discriminate Hsent.
  all: injection Hsent as <- <- <- <- <-.
  all: first
         [ left; repeat split; reflexivity
         | right; left; repeat split; reflexivity
         | right; right; right; repeat split; reflexivity
         | right; right; left;
           split; [reflexivity |]; split; [reflexivity |];
           split; [reflexivity |];
           do 3 eexists; repeat split; lia ].
Qed.

(** X10.  A 200 reply never reports more queries performed than the quota
    allows when the quota lookup returned, the quota being a JavaScript
    number (an integer that a double holds, as every quota the lookup can
    return is): [++] may round upwards, but not past a double.  When the
    lookup threw, the reply reports [totalQuota = -1] and a count of -1 or
    0. *)
Theorem reply_200_count_within_quota (resp : SignMessageResponse.t) :
  sent (trace (handle body w)) = [Json200 resp] ->
  if threw GetRemainingQueryCount (trace (handle body w))
  then SignMessageResponse.totalQuota resp = -1 /\
       (SignMessageResponse.performedQueryCount resp = -1 \/
        SignMessageResponse.performedQueryCount resp = 0)
  else isDouble (SignMessageResponse.totalQuota resp) = true ->
       SignMessageResponse.performedQueryCount resp
       <= SignMessageResponse.totalQuota resp.
Proof.
  all_paths_eq.
  all: intros Hsent; try discriminate Hsent.
  all: injection Hsent as <-; cbn.
  all: first [ intros Hdouble; first [lia | apply jsIncrement_le; assumption]
             | split; [reflexivity |];
               first [left; reflexivity | right; reflexivity] ].
Qed.

End Effects.

Section Healthy.
Context {W PrivateKey ContractKit : Type}.
Context {collaborators : Collaborators W PrivateKey ContractKit}.
Variable body : GetBlindedMessagePartialSigRequest.
Variables w0 w1 w2 w3 w4 w5 w6 w7 w8 : W.

(** X11.  When the request is valid, every collaborator returns, the
    authenticator says yes, the count is below the quota, the request is
    new and both writes report success, the handler's whole effect log is:
    requests counter (and the missing-session counter if due), the eight
    collaborator calls in order, the 200-responses counter, and one 200
    reply with [success = true], no [error] field, the signature computed,
    the quota and height read, and the count read plus one (the count being
    a safe integer, so that [++] is exact). *)
Theorem healthy_request_is_served
    (q : Quota.t) (height : Z) (key : PrivateKey) (signature : string) :
  isValidGetSignatureInput body = true ->
  authenticateUser body getContractKit w0 = (Returned true, w1) ->
  getRemainingQueryCount (account body) (hashedPhoneNumber body) w1
    = (Returned q, w2) ->
  getBlockNumber w2 = (Returned height, w3) ->
  Quota.performedQueryCount q < Quota.totalQuota q ->
  isSafeInteger (Quota.performedQueryCount q) = true ->
  getPrivateKey w3 = (Returned key, w4) ->
  computeBlindedSignature (blindedQueryPhoneNumber body) key w4
    = (Returned signature, w5) ->
  getRequestExists body w5 = (Returned false, w6) ->
  storeRequest body w6 = (Returned true, w7) ->
  incrementQueryCount (account body) w7 = (Returned true, w8) ->
  handle body w0 =
    {| world := w8;
       trace :=
         Inc Requests ::
         (if truthy (sessionID body) then []
          else [Inc SignatureRequestsWithoutSessionID]) ++
         [Call AuthenticateUser Returns;
          Call GetRemainingQueryCount Returns; Call GetBlockNumber Returns;
          Call GetPrivateKey Returns; Call ComputeBlindedSignature Returns;
          Call GetRequestExists Returns;
          Call StoreRequest Returns; Call IncrementQueryCount Returns;
          Inc Responses200;
          Send (Json200
                  {| SignMessageResponse.success := true;
                     SignMessageResponse.signature := signature;
                     SignMessageResponse.version := getVersion;
                     SignMessageResponse.performedQueryCount :=
                       Quota.performedQueryCount q + 1;
                     SignMessageResponse.totalQuota := Quota.totalQuota q;
                     SignMessageResponse.blockNumber := height;
                     SignMessageResponse.error := None |})] |}.
Proof.
  intros Hvalid Hauth Hquota Hblock Hlt Hsafe Hkey Hsig Hexists Hstore Hincrement.
  assert (Hgate : (Quota.performedQueryCount q >=? Quota.totalQuota q) = false)
    by (rewrite Z.geb_leb; apply Z.leb_gt; exact Hlt).
  rewrite <- (jsIncrement_safe _ Hsafe).
  steps; reflexivity.
Qed.

End Healthy.

Lemma invalid_input_witness :
  let s := Mock.served Mock.malformed in
  sent (trace s) = [RespondWithError 400 (Warning INVALID_INPUT) None None None] /\
  calls (trace s) = [] /\
  world s = [].
Proof.
  refine (@invalid_input_is_rejected _ _ _
            (Mock.collaborators Mock.malformed) Mock.request [] _).
  left. reflexivity.
Defined.

Lemma signature_gates_witness :
  @isValidGetSignatureInput _ _ _ (Mock.collaborators Mock.healthy) Mock.request
    = true /\
  fst (authenticateUser (Collaborators := Mock.collaborators Mock.healthy)
         Mock.request tt []) = Returned true /\
  withinQuota
    (fst (getRemainingQueryCount (Collaborators := Mock.collaborators Mock.healthy)
            "0xAA" None [])).
Proof.
  exact (@signature_only_after_all_gates _ _ _
           (Mock.collaborators Mock.healthy) Mock.request [] eq_refl).
Defined.

Lemma propagating_throw_witness :
  (exists before,
     calls (trace (Mock.served Mock.storeThrows))
     = before ++ [(StoreRequest, Throws)]) /\
  bumps Responses200 (trace (Mock.served Mock.storeThrows)) = 0%nat.
Proof.
  refine (@nothing_is_called_after_a_propagating_throw _ _ _
            (Mock.collaborators Mock.storeThrows) Mock.request []
            StoreRequest _ _ eq_refl); discriminate.
Defined.

Lemma error_reply_witness :
  (403 = 400 /\ Warning EXCEEDED_QUOTA = Warning INVALID_INPUT /\
   Some 10 = None /\ Some 10 = None /\ Some 500 = None /\
   @isValidGetSignatureInput _ _ _ (Mock.collaborators Mock.exhausted)
     Mock.request = false) \/
  (403 = 401 /\ Warning EXCEEDED_QUOTA = Warning UNAUTHENTICATED_USER /\
   Some 10 = None /\ Some 10 = None /\ Some 500 = None) \/
  (403 = 403 /\ Warning EXCEEDED_QUOTA = Warning EXCEEDED_QUOTA /\
   threw GetRemainingQueryCount (trace (Mock.served Mock.exhausted)) = false /\
   exists performed total height,
     Some 10 = Some performed /\ Some 10 = Some total /\
     Some 500 = Some height /\ performed >= total) \/
  (403 = 500 /\ Warning EXCEEDED_QUOTA = Error UNKNOWN_ERROR /\
   Some 10 = None /\ Some 10 = None /\ Some 500 = None).
Proof.
  exact (@error_replies_are_one_of_four _ _ _
           (Mock.collaborators Mock.exhausted) Mock.request []
           403 (Warning EXCEEDED_QUOTA) (Some 10) (Some 10) (Some 500) eq_refl).
Defined.

Lemma count_within_quota_witness :
  SignMessageResponse.performedQueryCount (Mock.response 3 10 500 None)
  <= SignMessageResponse.totalQuota (Mock.response 3 10 500 None).
Proof.
  exact (@reply_200_count_within_quota _ _ _
           (Mock.collaborators Mock.healthy) Mock.request []
           (Mock.response 3 10 500 None) eq_refl eq_refl).
Defined.

Lemma healthy_request_witness :
  Mock.served Mock.healthy =
    {| world := Mock.storedAndCounted;
       trace :=
         [Inc Requests;
          Call AuthenticateUser Returns;
          Call GetRemainingQueryCount Returns; Call GetBlockNumber Returns;
          Call GetPrivateKey Returns; Call ComputeBlindedSignature Returns;
          Call GetRequestExists Returns;
          Call StoreRequest Returns; Call IncrementQueryCount Returns;
          Inc Responses200;
          Send (Json200 (Mock.response 3 10 500 None))] |}.
Proof.
  refine (@healthy_request_is_served _ _ _
            (Mock.collaborators Mock.healthy) Mock.request
            [] [] [] [] [] [] [] Mock.stored Mock.storedAndCounted
            {| Quota.performedQueryCount := 2; Quota.totalQuota := 10 |}
            500 "key" "S"
            eq_refl eq_refl eq_refl eq_refl _ eq_refl eq_refl eq_refl eq_refl
            eq_refl eq_refl).
  cbn. lia.
Defined.

(** ** The tooling around the signer *)

Module BlockscoutFacts.
Import Blockscout.

Section Poll.
Context {Json : Type}.
Variable status : Json -> string.
Variable fetch : string -> nat -> outcome Json.
Variable now : nat -> Z.

Local Abbreviation poll := (Blockscout.poll status fetch now).
Local Abbreviation getFirstValidBlockscoutResponse :=
  (Blockscout.getFirstValidBlockscoutResponse status fetch now).
Local Abbreviation notYet := (Blockscout.notYet status fetch).
Local Abbreviation fetchBlockscoutTxInfo := (Blockscout.fetchBlockscoutTxInfo fetch).

Lemma poll_returns_first_valid (url txHash : string) (json : Json) :
  forall k remaining a,
    (k < remaining)%nat ->
    (forall i, (i < k)%nat -> notYet url txHash (a + i)) ->
    fetch (endpoint url txHash) (a + k) = Returned json ->
    status json = "1" ->
    poll remaining a url txHash
    = (Returned (Some (json, now (a + k)%nat)),
       rounds url txHash k ++ [Fetch (endpoint url txHash)]).
Proof.
  induction k as [| k IH]; intros remaining a Hlt Hbefore Hfetch Hstatus.
  - destruct remaining as [| r]; [lia |].
    cbn. rewrite Nat.add_0_r in *. rewrite Hfetch, Hstatus. reflexivity.
  - destruct remaining as [| r]; [lia |].
    cbn. destruct (Hbefore 0%nat ltac:(lia)) as (j & Hj & Hbad).
    rewrite Nat.add_0_r in Hj. rewrite Hj.
    destruct (String.eqb_spec (status j) "1") as [Heq | _]; [now elim Hbad |].
    cbn. rewrite (IH r (S a)).
    + replace (S a + k)%nat with (a + S k)%nat by lia. reflexivity.
    + lia.
    + intros i Hi. replace (S a + i)%nat with (a + S i)%nat by lia.
      apply Hbefore. lia.
    + replace (S a + k)%nat with (a + S k)%nat by lia. exact Hfetch.
    + exact Hstatus.
Qed.

Lemma poll_gives_up (url txHash : string) :
  forall remaining a,
    (forall i, (i < remaining)%nat -> notYet url txHash (a + i)) ->
    poll remaining a url txHash = (Returned None, rounds url txHash remaining).
Proof.
  induction remaining as [| r IH]; intros a Hall.
  - reflexivity.
  - cbn. destruct (Hall 0%nat ltac:(lia)) as (j & Hj & Hbad).
    rewrite Nat.add_0_r in Hj. rewrite Hj.
    destruct (String.eqb_spec (status j) "1") as [Heq | _]; [now elim Hbad |].
    cbn. rewrite (IH (S a)); [reflexivity |].
    intros i Hi. replace (S a + i)%nat with (a + S i)%nat by lia.
    apply Hall. lia.
Qed.

Lemma slept_rounds (url txHash : string) (k : nat) :
  slept (rounds url txHash k) = BLOCKSCOUT_FETCH_RETRY_TIME * Z.of_nat k.
Proof.
  induction k as [| k IH]; [reflexivity |].
  cbn [rounds slept]. rewrite IH. lia.
Qed.

Lemma poll_bounded (url txHash : string) :
  forall remaining a,
    (fetches (snd (poll remaining a url txHash)) <= remaining)%nat /\
    slept (snd (poll remaining a url txHash))
      <= BLOCKSCOUT_FETCH_RETRY_TIME * Z.of_nat remaining /\
    (forall json t,
       fst (poll remaining a url txHash) = Returned (Some (json, t)) ->
       status json = "1").
Proof.
  unfold BLOCKSCOUT_FETCH_RETRY_TIME.
  induction remaining as [| r IH]; intros a.
  - cbn. repeat split; try lia. intros json t H. discriminate H.
  - cbn [poll fetchBlockscoutTxInfo].
    destruct (fetch (endpoint url txHash) a) as [j | e].
    + destruct (String.eqb_spec (status j) "1") as [Heq | Hne]; cbn [negb].
      * cbn. split; [lia |]. split; [lia |].
        intros json t H. injection H as <- _. exact Heq.
      * specialize (IH (S a)).
        destruct (poll r (S a) url txHash) as [res fx].
        cbn [fst snd app fetches slept] in *.
        destruct IH as (Hf & Hs & Hv).
        unfold BLOCKSCOUT_FETCH_RETRY_TIME.
        split; [lia |]. split; [lia | exact Hv].
    + cbn. split; [lia |]. split; [lia |].
      intros json t H. discriminate H.
Qed.

(** X12.  If request [k], one of the first hundred, is the first whose
    response has status ['1'], the loop returns that response with the time
    read after it, having made [k + 1] requests and slept the retry time
    after each of the [k] earlier ones. *)
Theorem first_valid_response_is_returned
    (url txHash : string) (k : nat) (json : Json) :
  (k < 100)%nat ->
  (forall i, (i < k)%nat -> notYet url txHash i) ->
  fetch (endpoint url txHash) k = Returned json ->
  status json = "1" ->
  getFirstValidBlockscoutResponse url txHash
  = (Returned (Some (json, now k)),
     rounds url txHash k ++ [Fetch (endpoint url txHash)]).
Proof.
  intros Hk Hbefore Hfetch Hstatus.
  unfold getFirstValidBlockscoutResponse.
  change (Z.to_nat (MAXIMAL_BLOCKSCOUT_TIMEOUT / BLOCKSCOUT_FETCH_RETRY_TIME))
    with 100%nat.
  exact (poll_returns_first_valid url txHash json k 100 0 Hk Hbefore Hfetch Hstatus).
Qed.

(** X13.  If none of the first hundred responses has status ['1'], the loop
    gives up with [[null, null]] after exactly a hundred requests, having
    slept [MAXIMAL_BLOCKSCOUT_TIMEOUT] milliseconds in all. *)
Theorem gives_up_after_the_maximal_timeout (url txHash : string) :
  (forall i, (i < 100)%nat -> notYet url txHash i) ->
  getFirstValidBlockscoutResponse url txHash
    = (Returned None, rounds url txHash 100) /\
  fetches (rounds url txHash 100) = 100%nat /\
  slept (rounds url txHash 100) = MAXIMAL_BLOCKSCOUT_TIMEOUT.
Proof.
  intros Hall. split; [| split].
  - unfold getFirstValidBlockscoutResponse.
    change (Z.to_nat (MAXIMAL_BLOCKSCOUT_TIMEOUT / BLOCKSCOUT_FETCH_RETRY_TIME))
      with 100%nat.
    apply poll_gives_up. exact Hall.
  - reflexivity.
  - rewrite slept_rounds. reflexivity.
Qed.

(** X14.  Whatever the server does, the loop makes at most a hundred
    requests, sleeps at most [MAXIMAL_BLOCKSCOUT_TIMEOUT] milliseconds, and
    a response it returns has status ['1']. *)
Theorem polling_is_bounded_and_sound (url txHash : string) :
  (fetches (snd (getFirstValidBlockscoutResponse url txHash)) <= 100)%nat /\
  slept (snd (getFirstValidBlockscoutResponse url txHash))
    <= MAXIMAL_BLOCKSCOUT_TIMEOUT /\
  (forall json t,
     fst (getFirstValidBlockscoutResponse url txHash) = Returned (Some (json, t)) ->
     status json = "1").
Proof.
  unfold getFirstValidBlockscoutResponse.
  change (Z.to_nat (MAXIMAL_BLOCKSCOUT_TIMEOUT / BLOCKSCOUT_FETCH_RETRY_TIME))
    with 100%nat.
  destruct (poll_bounded url txHash 100 0) as (Hf & Hs & Hv).
  split; [exact Hf |]. split; [| exact Hv].
  exact Hs.
Qed.

End Poll.

Lemma first_valid_response_witness :
  Blockscout.getFirstValidBlockscoutResponse (fun s => s) readyAtFour clock
    "http://blockscout" "0xabc"
  = (Returned (Some ("1", 1003)),
     rounds "http://blockscout" "0xabc" 3
     ++ [Fetch (endpoint "http://blockscout" "0xabc")]).
Proof.
  refine (@first_valid_response_is_returned string (fun s => s) readyAtFour clock
            "http://blockscout" "0xabc" 3 "1" _ _ eq_refl eq_refl).
  - lia.
  - intros i Hi. exists "0". split; [| discriminate].
    unfold readyAtFour. destruct (Nat.leb_spec 3 i); [lia | reflexivity].
Defined.

Lemma gives_up_witness :
  Blockscout.getFirstValidBlockscoutResponse (fun s => s) neverReady clock
    "http://blockscout" "0xabc"
    = (Returned None, rounds "http://blockscout" "0xabc" 100) /\
  fetches (rounds "http://blockscout" "0xabc" 100) = 100%nat /\
  slept (rounds "http://blockscout" "0xabc" 100) = MAXIMAL_BLOCKSCOUT_TIMEOUT.
Proof.
  refine (@gives_up_after_the_maximal_timeout string (fun s => s) neverReady clock
            "http://blockscout" "0xabc" _).
  intros i _. exists "0". split; [reflexivity | discriminate].
Defined.

End BlockscoutFacts.

Module BytecodeFacts.
Import Bytecode.

Lemma length_append (s t : string) :
  String.length (s ++ t) = (String.length s + String.length t)%nat.
Proof. induction s as [| c s IH]; cbn; [reflexivity | now rewrite IH]. Qed.

Lemma length_filler (c : ascii) (n : nat) :
  String.length (string_of_list_ascii (repeat c n)) = n.
Proof. induction n as [| n IH]; cbn; [reflexivity | now rewrite IH]. Qed.

Lemma append_assoc (s t u : string) : ((s ++ t) ++ u = s ++ (t ++ u))%string.
Proof. induction s as [| c s IH]; cbn; [reflexivity | now rewrite IH]. Qed.

Lemma prefix_length (p s : string) :
  prefix p s = true -> (String.length p <= String.length s)%nat.
Proof.
  revert s. induction p as [| a p IH]; intros [| b s]; cbn; intros H; try lia.
  destruct (ascii_dec a b); [| discriminate H]. apply IH in H. lia.
Qed.

Lemma prefix_append (p s : string) : prefix p (p ++ s) = true.
Proof.
  induction p as [| a p IH]; cbn.
  - destruct s; reflexivity.
  - destruct (ascii_dec a a) as [_ | Hne]; [exact IH | now elim Hne].
Qed.

(** X15.  The placeholder of a library is [__], the name, then underscores
    up to forty characters.  It is exactly forty characters long for a name
    of up to 38 characters; a longer name is not cut, and its placeholder is
    longer than the forty characters an address takes. *)
Theorem padForLink_length (name : string) :
  String.length (padForLink name) = Nat.max 40 (String.length name + 2) /\
  padForLink name
  = ("__" ++ name ++
     string_of_list_ascii (repeat "_"%char (38 - String.length name)))%string.
Proof.
  unfold padForLink, padEnd. split.
  - rewrite length_append, length_filler. cbn [String.length append]. lia.
  - cbn [append String.length]. reflexivity.
Qed.

Lemma filler_snoc (c : ascii) (n : nat) :
  string_of_list_ascii (repeat c (S n))
  = (string_of_list_ascii (repeat c n) ++ String c EmptyString)%string.
Proof.
  induction n as [| n IH]; [reflexivity |].
  change (repeat c (S (S n))) with (c :: repeat c (S n)).
  change (repeat c (S n)) with (c :: repeat c n) at 2.
  cbn [string_of_list_ascii append]. f_equal. exact IH.
Qed.

(** X16.  Placeholders do not tell a name from the same name followed by an
    underscore: for names of up to 37 characters the two placeholders are
    the same string. *)
Theorem padForLink_trailing_underscore (name : string) :
  (String.length name + 3 <= 40)%nat ->
  padForLink (name ++ "_") = padForLink name.
Proof.
  intros Hshort. unfold padForLink, padEnd.
  cbn [append String.length]. rewrite length_append. cbn [String.length].
  replace (40 - S (S (String.length name)))%nat
    with (S (40 - S (S (String.length name + 1))))%nat by lia.
  rewrite filler_snoc.
  f_equal. f_equal.
  rewrite append_assoc. f_equal.
  generalize (40 - S (S (String.length name + 1)))%nat as n.
  induction n as [| n IH]; [reflexivity |].
  cbn [repeat string_of_list_ascii append]. rewrite <- IH. reflexivity.
Qed.

Lemma replaceAll_length (pattern replacement : string) :
  String.length replacement = String.length pattern ->
  (1 <= String.length pattern)%nat ->
  forall s skip,
    (skip <= String.length s)%nat ->
    (String.length (replaceAll pattern replacement skip s) + skip
     = String.length s)%nat.
Proof.
  intros Hsame Hnonempty.
  induction s as [| c rest IH]; intros skip Hskip.
  - cbn in *. lia.
  - cbn [replaceAll]. destruct skip as [| k].
    + destruct (prefix pattern (String c rest)) eqn:Hprefix.
      * apply prefix_length in Hprefix. cbn [String.length] in *.
        rewrite length_append.
        specialize (IH (String.length pattern - 1)%nat ltac:(lia)). lia.
      * cbn [String.length]. specialize (IH 0%nat ltac:(lia)). lia.
    + cbn [String.length] in *. specialize (IH k ltac:(lia)). lia.
Qed.

Lemma padForLink_length_short (name : string) :
  (String.length name <= 38)%nat -> String.length (padForLink name) = 40%nat.
Proof. intros H. destruct (padForLink_length name) as [-> _]. lia. Qed.

(** X17.  Linking keeps the length of the bytecode when every library name
    has at most 38 characters and every address exactly 40. *)
Theorem linkLibraries_preserves_length
    (libraryLinks : LibraryLinks) (bytecode linked : string) :
  (forall name address,
     In (name, address) libraryLinks ->
     (String.length name <= 38)%nat /\ String.length address = 40%nat) ->
  linkLibraries bytecode libraryLinks = Some linked ->
  String.length linked = String.length bytecode.
Proof.
  unfold linkLibraries. revert bytecode.
  induction libraryLinks as [| [name address] links IH]; intros bytecode Hsizes Hlinked.
  - cbn in Hlinked. now injection Hlinked as <-.
  - cbn [fold_left] in Hlinked.
    destruct (literalPattern (padForLink name) && plainReplacement address).
    + apply IH in Hlinked.
      * rewrite Hlinked.
        destruct (Hsizes name address (or_introl eq_refl)) as [Hname Haddress].
        pose proof (replaceAll_length (padForLink name) address) as Hlen.
        rewrite (padForLink_length_short name Hname) in Hlen.
        specialize (Hlen Haddress ltac:(lia) bytecode 0%nat ltac:(lia)). lia.
      * intros n a Hin. apply Hsizes. right. exact Hin.
    + exfalso. clear -Hlinked.
      induction links as [| [n a] links IH]; cbn in Hlinked; [discriminate | auto].
Qed.


Lemma chars_append (s t : string) :
  list_ascii_of_string (s ++ t)
  = list_ascii_of_string s ++ list_ascii_of_string t.
Proof. induction s as [| c s IH]; cbn; [reflexivity | now rewrite IH]. Qed.

Lemma literalPattern_padForLink (name : string) :
  literalPattern (padForLink name) = literalPattern name.
Proof.
  unfold padForLink, padEnd, literalPattern.
  rewrite !chars_append, !forallb_app, list_ascii_of_string_of_list_ascii.
  cbn [list_ascii_of_string forallb append].
  change (negb (isSyntaxCharacter "_"%char)) with true. cbn [andb].
  match goal with
  | |- _ && forallb _ (repeat _ ?n) = _ => generalize n
  end.
  intros n. induction n as [| n IH]; cbn [repeat forallb].
  - apply andb_true_r.
  - change (negb (isSyntaxCharacter "_"%char)) with true. exact IH.
Qed.

Lemma occurs_false_inv (pattern : string) (c : ascii) (rest : string) :
  occurs pattern (String c rest) = false ->
  prefix pattern (String c rest) = false /\ occurs pattern rest = false.
Proof. cbn [occurs]. intros H. apply orb_false_iff in H. exact H. Qed.

Lemma replaceAll_absent (pattern replacement s : string) :
  occurs pattern s = false -> replaceAll pattern replacement 0 s = s.
Proof.
  induction s as [| c rest IH]; intros Habsent; [reflexivity |].
  apply occurs_false_inv in Habsent. destruct Habsent as [Hhere Hlater].
  cbn [replaceAll]. rewrite Hhere, (IH Hlater). reflexivity.
Qed.

Lemma replaceAll_skip (pattern replacement x y : string) :
  replaceAll pattern replacement (String.length x) (x ++ y)
  = replaceAll pattern replacement 0 y.
Proof. induction x as [| c x IH]; cbn; [destruct y; reflexivity | exact IH]. Qed.

Lemma replaceAll_underscoreFree_prefix
    (pattern' replacement : string) (pre s : string) :
  underscoreFree pre = true ->
  replaceAll (String "_" pattern') replacement 0 (pre ++ s)
  = (pre ++ replaceAll (String "_" pattern') replacement 0 s)%string.
Proof.
  induction pre as [| c pre IH]; intros Hfree; [reflexivity |].
  unfold underscoreFree in Hfree. cbn [list_ascii_of_string forallb] in Hfree.
  apply andb_true_iff in Hfree. destruct Hfree as [Hc Hpre].
  cbn [append replaceAll prefix].
  destruct (ascii_dec "_" c) as [<- | _]; [discriminate Hc |].
  rewrite (IH Hpre). reflexivity.
Qed.

(** X18.  Bytecode in which no placeholder of the given libraries occurs
    comes back unchanged. *)
Theorem linkLibraries_without_placeholder
    (libraryLinks : LibraryLinks) (bytecode : string) :
  (forall name address,
     In (name, address) libraryLinks ->
     literalPattern name = true /\ plainReplacement address = true /\
     occurs (padForLink name) bytecode = false) ->
  linkLibraries bytecode libraryLinks = Some bytecode.
Proof.
  unfold linkLibraries.
  induction libraryLinks as [| [name address] links IH]; intros Hall.
  - reflexivity.
  - cbn [fold_left].
    destruct (Hall name address (or_introl eq_refl)) as (Hlit & Hplain & Habsent).
    rewrite literalPattern_padForLink, Hlit, Hplain. cbn [andb].
    rewrite (replaceAll_absent _ _ _ Habsent).
    apply IH. intros n a Hin. apply Hall. right. exact Hin.
Qed.

(** X19.  In bytecode made of underscore-free text, the placeholder of a
    library, and text in which that placeholder does not occur again,
    linking that library puts its address where the placeholder was and
    leaves the rest as it is. *)
Theorem linkLibraries_fills_placeholder
    (name address pre post : string) :
  literalPattern name = true ->
  plainReplacement address = true ->
  underscoreFree pre = true ->
  occurs (padForLink name) post = false ->
  linkLibraries (pre ++ padForLink name ++ post) [(name, address)]
  = Some (pre ++ address ++ post)%string.
Proof.
  intros Hlit Hplain Hpre Hpost.
  unfold linkLibraries. cbn [fold_left].
  rewrite literalPattern_padForLink, Hlit, Hplain. cbn [andb]. f_equal.
  remember (padForLink name) as ph eqn:Hph.
  assert (Hshape : exists ph', ph = String "_" ph').
  { subst ph. unfold padForLink, padEnd. cbn [append]. eexists. reflexivity. }
  destruct Hshape as [ph' ->].
  rewrite replaceAll_underscoreFree_prefix by exact Hpre. f_equal.
  cbn [append replaceAll].
  pose proof (prefix_append (String "_" ph') post) as Hmatch.
  cbn [append] in Hmatch. rewrite Hmatch. f_equal.
  cbn [String.length].
  replace (S (String.length ph') - 1)%nat with (String.length ph') by lia.
  rewrite replaceAll_skip. apply replaceAll_absent. exact Hpost.
Qed.

Lemma padForLink_trailing_underscore_witness :
  padForLink ("Lib" ++ "_") = padForLink "Lib".
Proof. apply padForLink_trailing_underscore. cbn. lia. Defined.

Lemma linkLibraries_preserves_length_witness :
  String.length ("6080" ++ someAddress ++ "5050")
  = String.length ("6080" ++ padForLink "Lib" ++ "5050").
Proof.
  refine (linkLibraries_preserves_length [("Lib", someAddress)]
            ("6080" ++ padForLink "Lib" ++ "5050")
            ("6080" ++ someAddress ++ "5050") _ eq_refl).
  intros name address [Hentry | []]. injection Hentry as <- <-.
  split; [cbn; lia | reflexivity].
Defined.

Lemma linkLibraries_without_placeholder_witness :
  linkLibraries "60806040" [("Lib", someAddress)] = Some "60806040".
Proof.
  apply linkLibraries_without_placeholder.
  intros name address [Hentry | []]. injection Hentry as <- <-.
  repeat split; reflexivity.
Defined.

Lemma linkLibraries_fills_placeholder_witness :
  linkLibraries ("6080" ++ padForLink "Lib" ++ "5050") [("Lib", someAddress)]
  = Some ("6080" ++ someAddress ++ "5050")%string.
Proof.
  exact (linkLibraries_fills_placeholder "Lib" someAddress "6080" "5050"
           eq_refl eq_refl eq_refl eq_refl).
Defined.

End BytecodeFacts.

Module MetadataFacts.
Import Metadata.

Lemma isMetadata_nonempty : isMetadata "" = false.
Proof. reflexivity. Qed.

Lemma beforeMetadata_sound (s p : string) :
  beforeMetadata s = Some p ->
  exists m, s = (p ++ m)%string /\ isMetadata m = true.
Proof.
  revert p. induction s as [| c rest IH]; intros p Hp; [discriminate Hp |].
  cbn [beforeMetadata] in Hp.
  destruct (beforeMetadata rest) as [q |].
  - injection Hp as <-. destruct (IH q eq_refl) as (m & -> & Hm).
    exists m. split; [reflexivity | exact Hm].
  - destruct (isMetadata (String c rest)) eqn:Hm; [| discriminate Hp].
    injection Hp as <-. exists (String c rest). split; [reflexivity | exact Hm].
Qed.

Lemma beforeMetadata_complete (p m : string) :
  isMetadata m = true -> beforeMetadata (p ++ m) <> None.
Proof.
  intros Hm. induction p as [| c p IH]; cbn [append].
  - destruct m as [| c rest]; [discriminate Hm |].
    cbn [beforeMetadata]. destruct (beforeMetadata rest); [discriminate |].
    rewrite Hm. discriminate.
  - cbn [beforeMetadata]. destruct (beforeMetadata (p ++ m)); [discriminate |].
    now elim IH.
Qed.

Lemma beforeMetadata_longest (s p : string) :
  beforeMetadata s = Some p ->
  forall p' m', s = (p' ++ m')%string -> isMetadata m' = true ->
                (String.length p' <= String.length p)%nat.
Proof.
  revert p. induction s as [| c rest IH]; intros p Hp p' m' Hsplit Hm';
    [discriminate Hp |].
  cbn [beforeMetadata] in Hp.
  destruct p' as [| c' p'']; [cbn; lia |].
  cbn [append] in Hsplit. injection Hsplit as <- ->.
  destruct (beforeMetadata (p'' ++ m')) as [q |] eqn:Hq.
  - injection Hp as <-. cbn [String.length].
    specialize (IH q eq_refl p'' m' eq_refl Hm'). lia.
  - now elim (beforeMetadata_complete p'' m' Hm').
Qed.

(** X20.  What [stripMetadata] returns is a beginning of its input: either
    the input is ["0x"] and comes back as it is, or the input is the result
    followed by a non-empty rest that matches one of the two metadata
    patterns. *)
Theorem stripMetadata_returns_beginning (bytecode p : string) :
  stripMetadata bytecode = Returned p ->
  (bytecode = "0x" /\ p = "0x") \/
  exists m, bytecode = (p ++ m)%string /\ isMetadata m = true /\ m <> "".
Proof.
  unfold stripMetadata.
  destruct (String.eqb_spec bytecode "0x") as [-> | Hne].
  - intros H. injection H as <-. left. split; reflexivity.
  - destruct (oneLine bytecode); [| discriminate].
    destruct (beforeMetadata bytecode) as [q |] eqn:Hq; [| discriminate].
    intros H. injection H as <-. right.
    destruct (beforeMetadata_sound _ _ Hq) as (m & Hsplit & Hm).
    exists m. repeat split; try assumption.
    intros ->. discriminate Hm.
Qed.

(** X21.  Only the last metadata section is stripped: no other way of
    cutting the input before a rest that matches a metadata pattern leaves
    a longer beginning than the one returned. *)
Theorem stripMetadata_strips_last_metadata (bytecode p p' m' : string) :
  stripMetadata bytecode = Returned p ->
  bytecode <> "0x" ->
  bytecode = (p' ++ m')%string ->
  isMetadata m' = true ->
  (String.length p' <= String.length p)%nat.
Proof.
  unfold stripMetadata.
  destruct (String.eqb_spec bytecode "0x") as [-> | _]; [intros _ H; now elim H |].
  destruct (oneLine bytecode); [| discriminate].
  destruct (beforeMetadata bytecode) as [q |] eqn:Hq; [| discriminate].
  intros H _ Hsplit Hm'. injection H as <-.
  exact (beforeMetadata_longest _ _ Hq p' m' Hsplit Hm').
Qed.

Lemma someSuffix_append (test : string -> bool) (x s : string) :
  someSuffix test s = true -> someSuffix test (x ++ s) = true.
Proof.
  intros Hs. induction x as [| c x IH]; [exact Hs |].
  cbn [append someSuffix]. rewrite IH. apply orb_true_r.
Qed.

Lemma someSuffix_of_suffix (test : string -> bool) (s : string) :
  someSuffix test s = true -> exists x t, s = (x ++ t)%string /\ test t = true.
Proof.
  induction s as [| c rest IH]; cbn [someSuffix]; intros H.
  - exists "", "". split; [reflexivity | exact H].
  - apply orb_true_iff in H. destruct H as [H | H].
    + exists "", (String c rest). split; [reflexivity | exact H].
    + destruct (IH H) as (x & t & -> & Ht).
      exists (String c x), t. split; [reflexivity | exact Ht].
Qed.

Lemma afterPrefix_suffix (pattern s rest : string) :
  afterPrefix pattern s = Some rest -> exists x, s = (x ++ rest)%string.
Proof.
  revert s. induction pattern as [| a pattern IH]; intros s H.
  - injection H as <-. exists "". reflexivity.
  - destruct s as [| b s]; [discriminate H |]. cbn [afterPrefix] in H.
    destruct (sameLetter a b); [| discriminate H].
    destruct (IH s H) as [x ->]. exists (String b x). reflexivity.
Qed.

Lemma endsWith_append (pattern x s : string) :
  endsWith pattern s = true -> endsWith pattern (x ++ s) = true.
Proof. apply someSuffix_append. Qed.

Lemma isMetadata_ending (m : string) :
  isMetadata m = true -> endsWith "0029" m = true \/ endsWith "0032" m = true.
Proof.
  unfold isMetadata, isMetadata058, isMetadata0512. intros H.
  apply orb_true_iff in H. destruct H as [H | H].
  - left. destruct (afterPrefix "a165627a7a72305820" m) as [rest |] eqn:Hrest;
      [| discriminate H].
    destruct (afterPrefix_suffix _ _ _ Hrest) as [x ->].
    apply endsWith_append. exact H.
  - right. destruct (afterPrefix "a265627a7a72315820" m) as [rest |] eqn:Hrest;
      [| discriminate H].
    destruct (afterPrefix_suffix _ _ _ Hrest) as [x ->].
    apply endsWith_append.
    unfold holdsThenEndsWith in H.
    destruct (someSuffix_of_suffix _ _ H) as (y & t & -> & Ht).
    apply endsWith_append.
    destruct (afterPrefix "64736f6c6343" t) as [rest' |] eqn:Hrest';
      [| discriminate Ht].
    destruct (afterPrefix_suffix _ _ _ Hrest') as [z ->].
    apply endsWith_append. exact Ht.
Qed.

(** X22.  Bytecode other than ["0x"] that ends neither in [0029] nor in
    [0032] is refused with the "only support" error. *)
Theorem stripMetadata_rejects_other_endings (bytecode : string) :
  bytecode <> "0x" ->
  endsWith "0029" bytecode = false ->
  endsWith "0032" bytecode = false ->
  stripMetadata bytecode = Thrown unsupported.
Proof.
  intros Hne H29 H32.
  destruct (stripMetadata bytecode) as [p | e] eqn:Hstrip.
  - destruct (stripMetadata_returns_beginning _ _ Hstrip)
      as [[-> _] | (m & -> & Hm & _)]; [now elim Hne |].
    destruct (isMetadata_ending m Hm) as [H | H];
      apply (endsWith_append _ p) in H; congruence.
  - unfold stripMetadata in Hstrip.
    destruct (String.eqb bytecode "0x"); [discriminate Hstrip |].
    destruct (if oneLine bytecode then beforeMetadata bytecode else None);
      [discriminate Hstrip |].
    injection Hstrip as <-. reflexivity.
Qed.

Lemma stripMetadata_returns_beginning_witness :
  ("0x6080a165627a7a72305820abcdef0029" = "0x" /\ "0x6080" = "0x") \/
  exists m,
    "0x6080a165627a7a72305820abcdef0029" = ("0x6080" ++ m)%string /\
    isMetadata m = true /\ m <> "".
Proof.
  exact (stripMetadata_returns_beginning
           "0x6080a165627a7a72305820abcdef0029" "0x6080" eq_refl).
Defined.

Lemma stripMetadata_strips_last_witness :
  (String.length "60" <= String.length "60a165627a7a72305820aa002960")%nat.
Proof.
  refine (stripMetadata_strips_last_metadata
            "60a165627a7a72305820aa002960A165627A7A72305820bb0029"
            "60a165627a7a72305820aa002960"
            "60" "a165627a7a72305820aa002960A165627A7A72305820bb0029"
            eq_refl _ eq_refl eq_refl).
  discriminate.
Defined.

Lemma stripMetadata_rejects_witness :
  stripMetadata "6080604052" = Thrown unsupported.
Proof.
  refine (stripMetadata_rejects_other_endings "6080604052" _ eq_refl eq_refl).
  discriminate.
Defined.

(** The second pattern, and upper-case hexadecimal digits. *)
Example strips_0_5_12 :
  stripMetadata "6080A265627A7A72315820ab64736F6C63430005100032"
  = Returned "6080".
Proof. reflexivity. Qed.

End MetadataFacts.

Module GethFacts.
Import Geth.

(** X23.  When every validator among the instances has a bootnode, and so
    also when there are no validators or no instances at all,
    [connectBipartiteClique] is not called. *)
Theorem no_isolated_validator_no_connections
    (instances : list GethInstanceConfig) :
  (forall node, In node instances -> isValidator node = true ->
                hasBootnode node = true) ->
  connectValidatorPeers instances = NoConnections.
Proof.
  intros Hall. unfold connectValidatorPeers.
  replace (filter (fun node => negb (hasBootnode node)) (filter isValidator instances))
    with (@nil GethInstanceConfig); [reflexivity |].
  symmetry. induction instances as [| node rest IH]; [reflexivity |].
  cbn [filter]. destruct (isValidator node) eqn:Hv.
  - cbn [filter]. rewrite (Hall node (or_introl eq_refl) Hv). cbn [negb].
    apply IH. intros n Hin. apply Hall. right. exact Hin.
  - apply IH. intros n Hin. apply Hall. right. exact Hin.
Qed.

Lemma find_none_filter_all {A} (f : A -> bool) (l : list A) :
  find f l = None -> filter (fun x => negb (f x)) l = l.
Proof.
  induction l as [| x l IH]; [reflexivity |].
  cbn [find filter]. destruct (f x); [discriminate |].
  intros H. cbn [negb]. now rewrite (IH H).
Qed.

(** X24.  When [connectBipartiteClique] is called, its right argument is
    the non-empty list of the validators without a bootnode, and its left
    argument is a single root that is defined and is one of the validators:
    the first validator with a bootnode if there is one, and it is then not
    on the right; otherwise the first validator, which is then itself the
    first on the right. *)
Theorem validator_peers_plan
    (instances : list GethInstanceConfig)
    (left : list (option GethInstanceConfig)) (right : list GethInstanceConfig) :
  connectValidatorPeers instances = ConnectBipartiteClique left right ->
  right <> [] /\
  (forall node, In node right <->
                In node instances /\ isValidator node = true /\
                hasBootnode node = false) /\
  exists root,
    left = [Some root] /\ In root instances /\ isValidator root = true /\
    (hasBootnode root = true /\ ~ In root right /\
     find hasBootnode (filter isValidator instances) = Some root
     \/
     hasBootnode root = false /\ hd_error right = Some root /\
     right = filter isValidator instances).
Proof.
  unfold connectValidatorPeers.
  set (validators := filter isValidator instances).
  set (isolated := filter (fun node => negb (hasBootnode node)) validators).
  destruct isolated as [| first others] eqn:Hisolated; [discriminate |].
  cbn [List.length]. destruct (Z.of_nat (S (List.length others)) <=? 0) eqn:Hle;
    [apply Z.leb_le in Hle; lia |].
  intros Hplan. injection Hplan as <- <-.
  split; [discriminate |]. split.
  - intros node. rewrite <- Hisolated. unfold isolated, validators.
    rewrite !filter_In, negb_true_iff. tauto.
  - destruct (find hasBootnode validators) as [root |] eqn:Hfind.
    + exists root. apply find_some in Hfind. destruct Hfind as [Hin Hboot].
      unfold validators in Hin. apply filter_In in Hin. destruct Hin as [Hin Hv].
      repeat split; try assumption. left.
      split; [exact Hboot |]. split; [| reflexivity].
      rewrite <- Hisolated. unfold isolated. intros Hroot.
      apply filter_In in Hroot. destruct Hroot as [_ Hno].
      rewrite Hboot in Hno. discriminate Hno.
    + pose proof (find_none_filter_all _ _ Hfind) as Hsame.
      fold isolated in Hsame. rewrite Hisolated in Hsame.
      rewrite <- Hsame. cbn [nth_error]. exists first.
      assert (Hin : In first validators) by (rewrite <- Hsame; left; reflexivity).
      unfold validators in Hin. apply filter_In in Hin. destruct Hin as [Hin Hv].
      repeat split; try assumption. right.
      split; [| split; reflexivity].
      pose proof (find_none _ _ Hfind first) as Hno.
      apply Hno. rewrite <- Hsame. left. reflexivity.
Qed.

Lemma no_isolated_validator_witness :
  connectValidatorPeers [behindProxy; seeded] = NoConnections.
Proof.
  apply no_isolated_validator_no_connections.
  intros n [<- | [<- | []]] Hv; [discriminate Hv | reflexivity].
Defined.

Lemma validator_peers_plan_witness :
  [loneA; loneC] <> [] /\
  (forall n, In n [loneA; loneC] <->
             In n [behindProxy; loneA; seeded; loneC] /\
             isValidator n = true /\ hasBootnode n = false) /\
  exists root,
    [Some seeded] = [Some root] /\
    In root [behindProxy; loneA; seeded; loneC] /\ isValidator root = true /\
    (hasBootnode root = true /\ ~ In root [loneA; loneC] /\
     find hasBootnode (filter isValidator [behindProxy; loneA; seeded; loneC])
       = Some root
     \/
     hasBootnode root = false /\ hd_error [loneA; loneC] = Some root /\
     [loneA; loneC] = filter isValidator [behindProxy; loneA; seeded; loneC]).
Proof.
  exact (validator_peers_plan [behindProxy; loneA; seeded; loneC]
           [Some seeded] [loneA; loneC] eq_refl).
Defined.

End GethFacts.

Module TransferFacts.
Import Transfer.

Section Facts.
Context {Amount Result Receipt : Type}.
Variable env : @Environment Amount Result Receipt.
Variables from to password : string.
Variable onTransactionHash : option (string -> outcome unit).
Variable onReceipt : option (Receipt -> outcome unit).
Variable onError : option (Exn -> outcome unit).

(** Every path through [transferERC20Token], one goal per path. *)
Ltac next_effect :=
  match goal with
  | |- context [personalUnlockAccount ?e ?a ?p ?d] =>
      destruct (personalUnlockAccount e a p d) as [[] | ?]
  | |- context [convertToContractDecimals ?e] =>
      destruct (convertToContractDecimals e) as [? | ?]
  | |- context [transferSend ?e ?t ?a] =>
      destruct (transferSend e t a) as [? | ?]
  | |- context [getHash ?e ?r] => destruct (getHash e r) as [? | ?]
  | |- context [waitReceipt ?e ?r] => destruct (waitReceipt e r) as [? | ?]
  | |- context [match ?callback ?x with Returned _ => _ | Thrown _ => _ end] =>
      destruct (callback x) as [[] | ?] eqn:?
  | |- context [(?callback ?x, _)] =>
      is_var callback; destruct (callback x) as [[] | ?] eqn:?
  end;
  cbn.

Ltac transfer_paths :=
  unfold transferERC20Token, unlockAccount, andThen, tryCatch, perform, pure;
  destruct onTransactionHash as [onHash |];
  destruct onReceipt as [onRcpt |];
  destruct onError as [onErr |];
  cbn; repeat next_effect.

(** X25.  Once the account is unlocked and the amount converted, no failure
    of sending, of reading the hash, of waiting for the receipt or of the
    two callbacks makes [transferERC20Token] throw: it returns normally
    whenever [onError] is absent or returns. *)
Theorem transfer_failures_do_not_escape (amount : Amount) :
  personalUnlockAccount env (Some from) password 0 = Returned tt ->
  convertToContractDecimals env = Returned amount ->
  (forall callback error, onError = Some callback -> callback error = Returned tt) ->
  fst (transferERC20Token env from to password
         onTransactionHash onReceipt onError []) = Returned tt.
Proof.
  transfer_paths.
  all: intros Hunlock Hconvert Hhandler; try discriminate; try reflexivity.
  all: apply Hhandler; reflexivity.
Qed.

(** X26.  [transferERC20Token] first unlocks the sender's account, for
    duration 0, and never asks the node for its accounts.  The transfer is
    sent only if unlocking and the conversion of the amount both returned;
    if it is not sent, [onError] is not called and the function throws. *)
Theorem send_only_after_unlock_and_conversion :
  let log := snd (transferERC20Token env from to password
                    onTransactionHash onReceipt onError []) in
  hd_error log = Some (PersonalUnlockAccount (Some from) password 0) /\
  mentions isGetAccounts log = false /\
  (mentions isTransferSend log = true ->
   personalUnlockAccount env (Some from) password 0 = Returned tt /\
   exists amount, convertToContractDecimals env = Returned amount) /\
  (mentions isTransferSend log = false ->
   mentions isOnError log = false /\
   exists e, fst (transferERC20Token env from to password
                    onTransactionHash onReceipt onError []) = Thrown e).
Proof.
  transfer_paths.
  all: split; [reflexivity |].
  all: split; [reflexivity |].
  all: split; intros H; try discriminate H.
  all: split; [reflexivity | eexists; reflexivity].
Qed.

(** X27.  The transaction hash is read only when [onTransactionHash] is
    given, and the receipt is waited for only when [onReceipt] is given. *)
Theorem results_awaited_only_for_callbacks :
  let log := snd (transferERC20Token env from to password
                    onTransactionHash onReceipt onError []) in
  (onTransactionHash = None -> mentions isGetHash log = false) /\
  (onReceipt = None -> mentions isWaitReceipt log = false).
Proof.
  transfer_paths.
  all: split; intros H; try discriminate H; reflexivity.
Qed.

(** X28.  [onError] is called at most once; when it is called, that is the
    last thing the function does, and the transfer had been sent (or tried)
    before. *)
Theorem onError_is_called_at_most_once_and_last :
  let log := snd (transferERC20Token env from to password
                    onTransactionHash onReceipt onError []) in
  (List.length (filter isOnError log) <= 1)%nat /\
  (mentions isOnError log = true ->
   exists before e, log = before ++ [OnError e] /\
                    mentions isTransferSend before = true).
Proof.
  transfer_paths.
  all: split; [cbn; lia |].
  all: intros H; try discriminate H.
  all: match goal with
       | |- exists before e, ?l = _ /\ _ =>
           exists (removelast l); eexists; split; reflexivity
       end.
Qed.

End Facts.

Lemma transfer_failures_witness :
  fst (transferERC20Token failingSend "0xAA" "0xBB" "secret"
         None None (Some (fun _ => Returned tt)) []) = Returned tt.
Proof.
  refine (@transfer_failures_do_not_escape Z string string failingSend
            "0xAA" "0xBB" "secret" None None (Some (fun _ => Returned tt))
            10 eq_refl eq_refl _).
  intros callback error Hcallback. injection Hcallback as <-. reflexivity.
Defined.

End TransferFacts.
